(** * SQLite fluent datasource: a shallow embedding

    The development follows
    [great_expectations/datasource/fluent/sqlite_datasource.py] and the
    REST contract test [tests/integration/cloud/rest_contracts/test_datasource.py].

    Python dictionaries with string keys are [gmap string _]; a call that
    can raise returns a [result]; a method is a function of [self] that
    hands back the object next to what it returns, so that "the object is
    left as it was" is a statement about the code and not a convention. *)

From Stdlib Require Import ZArith Ascii String List Lia.
From stdpp Require Import gmap strings list fin_maps pretty.

Open Scope string_scope.

(** ** Python values, exceptions and results *)

(** The values a [Dict[str, Any]] of this module holds. *)
#[warnings="-register-all"]
Inductive PyValue : Type :=
  | PyNone
  | PyBool (b : bool)
  | PyInt (z : Z)
  | PyStr (s : string)
  | PyDict (d : gmap string PyValue).

Inductive exn : Type :=
  | ValueError (msg : string)
  | TypeError (msg : string)
  | KeyError (key : string)
  | AssertionError (msg : string)
  | PydanticValueError (code : string)
  | ValidationError (errors : list string).

Inductive result (A : Type) : Type :=
  | Ok (a : A)
  | Raise (e : exn).
Arguments Ok {A} a.
Arguments Raise {A} e.

(** Sequencing: the first exception raised is the one that propagates. *)
#[global] Instance result_bind : MBind result :=
  fun A B (k : A -> result B) (r : result A) =>
    match r with
    | Ok a => k a
    | Raise e => Raise e
    end.

Definition returns {A : Type} (r : result A) : bool :=
  match r with Ok _ => true | Raise _ => false end.

(** A method of an object of type [S]: the value it returns or the
    exception it raises, and the object after the call. *)
Definition method (S A : Type) : Type := S -> result A * S.

(** A method that only reads [self]. *)
Definition reading {S A : Type} (f : S -> result A) : method S A :=
  fun self => (f self, self).

(** ** PartitionerConvertedDateTime *)

Module Partitioner.

(** The pydantic fields of the class (lines 68-70). *)
Record PartitionerConvertedDateTime : Type := {
  date_format_string : string;
  column_name : string;
  method_name : string
}.

(** The only value of [Literal["partition_on_converted_datetime"]]. *)
Definition METHOD_NAME : string := "partition_on_converted_datetime".

(** *** Construction

    The class is a pydantic model: calling it validates the keyword
    arguments field by field and reports every error at once.  The two
    [str] fields are required; [method_name] has a default and admits the
    one value of its [Literal] type. *)

(** The names of the fields. *)
Definition FIELDS : gset string :=
  {[ "date_format_string"; "column_name"; "method_name" ]}.

(** Validation of a value for a [str] field: a number is turned into its
    text; a dictionary is no text. *)
Definition str_validator (v : PyValue) : string + string :=
  match v with
  | PyStr s => inr s
  | PyInt z => inr (pretty z)
  | PyBool b => inr (if b then "True" else "False")
  | PyNone => inl "type_error.none.not_allowed"
  | PyDict _ => inl "type_error.str"
  end.

(** A required [str] field. *)
Definition validate_str_field (kwargs : gmap string PyValue) (name : string)
  : string + string :=
  match kwargs !! name with
  | None => inl "value_error.missing"
  | Some v => str_validator v
  end.

(** The field [method_name: Literal["partition_on_converted_datetime"]],
    with its default. *)
Definition validate_method_name (kwargs : gmap string PyValue) : string + string :=
  match kwargs !! "method_name" with
  | None => inr METHOD_NAME
  | Some PyNone => inl "type_error.none.not_allowed"
  | Some (PyStr s) =>
      if String.eqb s METHOD_NAME then inr METHOD_NAME else inl "value_error.const"
  | Some _ => inl "value_error.const"
  end.

Definition field_errors (loc : string) (r : string + string) : list string :=
  match r with
  | inl code => [loc +:+ ": " +:+ code]
  | inr _ => []
  end.

Section Construction.

(** Whether the configuration of the model, which the class inherits from
    its base class in [sql_datasource.py], forbids keyword arguments that
    name no field. *)
Variable forbid_extra : bool.

Definition extra_errors (kwargs : gmap string PyValue) : list string :=
  if forbid_extra
  then (fun k => k +:+ ": value_error.extra") <$> elements (dom kwargs ∖ FIELDS)
  else [].

(** The validating constructor.  The errors are listed in the order in
    which lines 68-70 declare the fields, then the keyword arguments that
    name no field; the order of a report is used by no statement. *)
Definition __init__ (kwargs : gmap string PyValue) : result PartitionerConvertedDateTime :=
  let d := validate_str_field kwargs "date_format_string" in
  let c := validate_str_field kwargs "column_name" in
  let m := validate_method_name kwargs in
  match d, c, m, extra_errors kwargs with
  | inr d', inr c', inr m', [] =>
      Ok {| date_format_string := d'; column_name := c'; method_name := m' |}
  | _, _, _, extra =>
      Raise (ValidationError
               (field_errors "date_format_string" d ++ field_errors "column_name" c
                ++ field_errors "method_name" m ++ extra)%list)
  end.

End Construction.

(** [construct], the constructor of a pydantic model that validates
    nothing, called with texts: the values are stored as they are given,
    and [method_name] takes its default when it is left out. *)
Definition construct (date_format_string column_name : string)
    (method_name : option string) : PartitionerConvertedDateTime :=
  {| date_format_string := date_format_string;
     column_name := column_name;
     method_name := default METHOD_NAME method_name |}.

(** The assignment [self.method_name = value] of a text: the model does
    not validate assignments. *)
Definition set_method_name (value : string) : method PartitionerConvertedDateTime unit :=
  fun self =>
    (Ok tt,
     {| date_format_string := date_format_string self;
        column_name := column_name self;
        method_name := value |}).

(** [param_names] (lines 72-77). *)
Definition param_names (self : PartitionerConvertedDateTime) : list string :=
  ["datetime"].

(** [partitioner_method_kwargs] (lines 79-84): a dict literal with two
    string keys, built left to right. *)
Definition partitioner_method_kwargs (self : PartitionerConvertedDateTime)
  : gmap string PyValue :=
  <["date_format_string" := PyStr (date_format_string self)]>
    (<["column_name" := PyStr (column_name self)]> ∅).

Definition MISSING_DATETIME : string :=
  "'datetime' must be specified in the batch request options to create a batch identifier".

(** [batch_request_options_to_batch_spec_kwarg_identifiers] (lines 86-94).
    [options["datetime"]] is the dictionary subscript, which raises
    [KeyError] on a missing key. *)
Definition getitem (d : gmap string PyValue) (k : string) : result PyValue :=
  match d !! k with
  | Some v => Ok v
  | None => Raise (KeyError k)
  end.

Definition contains (d : gmap string PyValue) (k : string) : bool :=
  bool_decide (is_Some (d !! k)).

Definition batch_request_options_to_batch_spec_kwarg_identifiers
    (self : PartitionerConvertedDateTime) (options : gmap string PyValue)
  : result (gmap string PyValue) :=
  if negb (contains options "datetime") then Raise (ValueError MISSING_DATETIME)
  else
    v ← getitem options "datetime";
    Ok (<[column_name self := v]> ∅).

(** The operations of the class as methods in the state-passing sense:
    none of the three bodies assigns to [self]. *)
Inductive op : Type :=
  | ParamNames
  | PartitionerMethodKwargs
  | BatchSpecKwargIdentifiers (options : gmap string PyValue).

Inductive answer : Type :=
  | Names (l : list string)
  | Kwargs (d : gmap string PyValue).

Definition call (o : op) : method PartitionerConvertedDateTime answer :=
  match o with
  | ParamNames => reading (fun self => Ok (Names (param_names self)))
  | PartitionerMethodKwargs =>
      reading (fun self => Ok (Kwargs (partitioner_method_kwargs self)))
  | BatchSpecKwargIdentifiers options =>
      reading (fun self =>
        d ← batch_request_options_to_batch_spec_kwarg_identifiers self options;
        Ok (Kwargs d))
  end.

(** The object after a sequence of calls, whatever each call answered. *)
Definition after (ops : list op) (self : PartitionerConvertedDateTime)
  : PartitionerConvertedDateTime :=
  fold_left (fun s o => snd (call o s)) ops self.

End Partitioner.

(** ** Regular expressions, as far as the URL grammar needs them

    [pydantic.AnyUrl], the base class of [SqliteDsn], splits a URL with one
    regular expression matched with [re.match] under [re.IGNORECASE].  The
    matcher below is a backtracking matcher in continuation style; the
    choices are tried in the order of Python's [re] (greedy quantifiers,
    ordered alternation), so the first match found is the one [re] finds.
    Text is ASCII: one [ascii] per character. *)

Module Regex.

Inductive re : Type :=
  | Eps
  | Class (p : ascii -> bool)
  | Seq (r1 r2 : re)
  | Alt (r1 r2 : re)
  | Opt (r : re)
  | Star (r : re)
  | Group (name : string) (r : re)
  | Ahead (r : re)
  | AtEnd.

Definition Plus (r : re) : re := Seq r (Star r).

Definition Chr (c : ascii) : re := Class (Ascii.eqb c).

Fixpoint Lit (s : string) : re :=
  match s with
  | EmptyString => Eps
  | String c s' => Seq (Chr c) (Lit s')
  end.

(** The text of [before] that was consumed to reach its suffix [after]. *)
Definition consumed (before after : string) : string :=
  String.substring 0 (String.length before - String.length after) before.

(** [$] without [re.MULTILINE]: the end, or just before a final newline. *)
Definition at_end (s : string) : bool :=
  match s with
  | EmptyString => true
  | String c EmptyString => Ascii.eqb c "010"%char
  | _ => false
  end.

Fixpoint run {R : Type} (r : re) (s : string) (g : gmap string string)
    (k : string -> gmap string string -> option R) : option R :=
  match r with
  | Eps => k s g
  | Class p =>
      match s with
      | String c s' => if p c then k s' g else None
      | EmptyString => None
      end
  | Seq r1 r2 => run r1 s g (fun s' g' => run r2 s' g' k)
  | Alt r1 r2 =>
      match run r1 s g k with
      | Some x => Some x
      | None => run r2 s g k
      end
  | Opt r1 =>
      match run r1 s g k with
      | Some x => Some x
      | None => k s g
      end
  | Star r1 =>
      (fix loop (fuel : nat) (s : string) (g : gmap string string) : option R :=
         match fuel with
         | O => k s g
         | S fuel' =>
             match run r1 s g (fun s' g' =>
                     if Nat.ltb (String.length s') (String.length s)
                     then loop fuel' s' g' else None) with
             | Some x => Some x
             | None => k s g
             end
         end) (String.length s) s g
  | Group name r1 =>
      run r1 s g (fun s' g' => k s' (<[name := consumed s s']> g'))
  | Ahead r1 =>
      match run r1 s g (fun _ _ => Some tt) with
      | Some _ => k s g
      | None => None
      end
  | AtEnd => if at_end s then k s g else None
  end.

(** [re.match]: anchored at the start; the answer is the unread rest of
    the text (so [m.end()] is what was read) and [m.groupdict()], where a
    group that took no part is absent. *)
Definition rmatch (r : re) (s : string) : option (string * gmap string string) :=
  run r s ∅ (fun s' g => Some (s', g)).

End Regex.

(** ** SqliteDsn and the connection string of the datasource *)

Module Url.
Import Regex.

(** *** Character classes of the URL grammar (ASCII, [re.IGNORECASE]) *)

Definition between (lo hi c : ascii) : bool :=
  Nat.leb (nat_of_ascii lo) (nat_of_ascii c) && Nat.leb (nat_of_ascii c) (nat_of_ascii hi).

Definition ch (x c : ascii) : bool := Ascii.eqb x c.

Definition digit (c : ascii) : bool := between "0" "9" c.

Definition alpha (c : ascii) : bool := between "a" "z" c || between "A" "Z" c.

Definition hexdigit (c : ascii) : bool :=
  digit c || between "a" "f" c || between "A" "F" c.

(** [\s] on ASCII text: tab to carriage return, the four separators
    28 to 31, and the space. *)
Definition space (c : ascii) : bool :=
  between "009" "013" c || between "028" "031" c || ch " " c.

Definition scheme_tail (c : ascii) : bool :=
  alpha c || digit c || ch "+" c || ch "-" c || ch "." c.

Definition user_char (c : ascii) : bool := negb (space c || ch ":" c || ch "/" c).
Definition password_char (c : ascii) : bool := negb (space c || ch "/" c).
Definition domain_char (c : ascii) : bool :=
  negb (space c || ch "/" c || ch ":" c || ch "?" c || ch "#" c).
Definition path_char (c : ascii) : bool := negb (space c || ch "?" c || ch "#" c).
Definition query_char (c : ascii) : bool := negb (space c || ch "#" c).

(** *** The grammar: [_scheme_regex], [_user_info_regex], [_host_regex],
    [_path_regex], [_query_regex], [_fragment_regex] of [pydantic.networks] *)

Definition scheme_regex : re :=
  Opt (Seq (Group "scheme" (Seq (Class alpha) (Plus (Class scheme_tail)))) (Lit "://")).

Definition user_info_regex : re :=
  Opt (Seq (Group "user" (Star (Class user_char)))
      (Seq (Opt (Seq (Chr ":") (Group "password" (Star (Class password_char)))))
           (Chr "@"))).

(** [\d{1,3}] *)
Definition digits_1_3 : re :=
  Seq (Class digit) (Opt (Seq (Class digit) (Opt (Class digit)))).

Definition octet_dot : re := Seq digits_1_3 (Chr ".").

(** [(?=$|[/:#?])] *)
Definition host_end : re :=
  Ahead (Alt AtEnd (Class (fun c => ch "/" c || ch ":" c || ch "#" c || ch "?" c))).

Definition ipv4_regex : re :=
  Seq (Group "ipv4" (Seq octet_dot (Seq octet_dot (Seq octet_dot digits_1_3)))) host_end.

Definition ipv6_regex : re :=
  Seq (Group "ipv6"
         (Seq (Chr "[")
         (Seq (Star (Class hexdigit))
         (Seq (Chr ":")
         (Seq (Plus (Class (fun c => hexdigit c || ch ":" c)))
              (Chr "]"))))))
      host_end.

Definition host_regex : re :=
  Seq (Opt (Alt ipv4_regex (Alt ipv6_regex (Group "domain" (Plus (Class domain_char))))))
      (Opt (Seq (Chr ":") (Group "port" (Plus (Class digit))))).

Definition path_regex : re :=
  Opt (Group "path" (Seq (Chr "/") (Star (Class path_char)))).

Definition query_regex : re :=
  Opt (Seq (Chr "?") (Group "query" (Star (Class query_char)))).

Definition fragment_regex : re :=
  Opt (Seq (Chr "#") (Group "fragment" (Star (Class query_char)))).

Definition url_regex : re :=
  Seq scheme_regex (Seq user_info_regex (Seq host_regex
    (Seq path_regex (Seq query_regex fragment_regex)))).

(** *** The parts of a URL *)

Record Parts : Type := {
  scheme : option string;
  user : option string;
  password : option string;
  ipv4 : option string;
  ipv6 : option string;
  domain : option string;
  port : option string;
  path : option string;
  query : option string;
  fragment : option string
}.

Definition groupdict (g : gmap string string) : Parts :=
  {| scheme := g !! "scheme"; user := g !! "user"; password := g !! "password";
     ipv4 := g !! "ipv4"; ipv6 := g !! "ipv6"; domain := g !! "domain";
     port := g !! "port"; path := g !! "path"; query := g !! "query";
     fragment := g !! "fragment" |}.

(** [_match_url]: the parts and the text left unread. *)
Definition _match_url (url : string) : option (string * Parts) :=
  match rmatch url_regex url with
  | Some (rest, g) => Some (rest, groupdict g)
  | None => None
  end.

(** *** Strings: [strip], [lower], [int] *)

Fixpoint lstrip (s : string) : string :=
  match s with
  | String c s' => if space c then lstrip s' else s
  | EmptyString => EmptyString
  end.

Definition strip (s : string) : string :=
  String.rev (lstrip (String.rev (lstrip s))).

Definition lower_char (c : ascii) : ascii :=
  if between "A" "Z" c then ascii_of_nat (nat_of_ascii c + 32) else c.

Fixpoint lower (s : string) : string :=
  match s with
  | String c s' => String (lower_char c) (lower s')
  | EmptyString => EmptyString
  end.

(** The number a text of decimal digits writes. *)
Definition int_of_digits (s : string) : N :=
  fold_left (fun (n : N) (c : ascii) => (10 * n + (N_of_ascii c - 48))%N)
            (list_ascii_of_string s) 0%N.

(** [int(s)] of a text of decimal digits: the interpreter refuses a text
    of more than 4300 digits, leading zeros counted. *)
Definition INT_MAX_STR_DIGITS : nat := 4300.

Definition int (s : string) : result N :=
  if Nat.ltb INT_MAX_STR_DIGITS (String.length s)
  then Raise (ValueError "Exceeds the limit (4300 digits) for integer string conversion")
  else Ok (int_of_digits s).


(** *** Class attributes of a URL type *)

Record UrlClass : Type := {
  strip_whitespace : bool;
  min_length : N;
  max_length : N;
  allowed_schemes : option (gset string);
  tld_required : bool;
  user_required : bool;
  host_required : bool
}.

(** The defaults of [pydantic.AnyUrl]. *)
Definition AnyUrl : UrlClass :=
  {| strip_whitespace := true;
     min_length := 1;
     max_length := 2 ^ 16;
     allowed_schemes := None;
     tld_required := false;
     user_required := false;
     host_required := true |}.

(** [class SqliteDsn(pydantic.AnyUrl)] (lines 97-104): two attributes are
    overridden, the others are inherited. *)
Definition SQLITE_SCHEMES : gset string :=
  {[ "sqlite"; "sqlite+pysqlite"; "sqlite+aiosqlite"; "sqlite+pysqlcipher" ]}.

Definition SqliteDsn : UrlClass :=
  {| strip_whitespace := strip_whitespace AnyUrl;
     min_length := min_length AnyUrl;
     max_length := max_length AnyUrl;
     allowed_schemes := Some SQLITE_SCHEMES;
     tld_required := tld_required AnyUrl;
     user_required := user_required AnyUrl;
     host_required := false |}.

(** A URL class with its [host_required] attribute set to [b] and every
    other attribute as in [cls]. *)
Definition with_host_required (b : bool) (cls : UrlClass) : UrlClass :=
  {| strip_whitespace := strip_whitespace cls;
     min_length := min_length cls;
     max_length := max_length cls;
     allowed_schemes := allowed_schemes cls;
     tld_required := tld_required cls;
     user_required := user_required cls;
     host_required := b |}.

Inductive HostType : Type := domain_host | int_domain_host | ipv4_host | ipv6_host.

(** A validated URL: the text and its attributes. *)
Record UrlValue : Type := {
  url_text : string;
  url_scheme : string;
  url_user : option string;
  url_password : option string;
  url_host : option string;
  url_tld : option string;
  url_host_type : option HostType;
  url_port : option string;
  url_path : option string;
  url_query : option string;
  url_fragment : option string
}.

(** Truth value of an [Optional[str]]. *)
Definition truthy (o : option string) : bool :=
  match o with
  | Some (String _ _) => true
  | _ => false
  end.

Definition text_or_empty (o : option string) : string := default "" o.

Section Validate.

(** The check of a host name against the two domain grammars of the
    library ([ascii_domain_regex], [int_domain_regex]) and its IDNA
    encoding: [None] when neither grammar matches, else the top-level
    domain, whether the name is international, and the encoded host. *)
Variable domain_grammar : string -> option (option string * bool * string).

Variable cls : UrlClass.

(** [constr_length_validator] *)
Definition constr_length_validator (v : string) : result string :=
  let v_len := N.of_nat (String.length v) in
  if (v_len <? min_length cls)%N then Raise (PydanticValueError "AnyStrMinLengthError")
  else if (max_length cls <? v_len)%N then Raise (PydanticValueError "AnyStrMaxLengthError")
  else Ok v.

(** [_validate_port] *)
Definition _validate_port (port : option string) : result unit :=
  match port with
  | Some p =>
      n ← int p;
      if (65535 <? n)%N then Raise (PydanticValueError "UrlPortError")
      else Ok tt
  | None => Ok tt
  end.

(** [cls.allowed_schemes and scheme.lower() not in cls.allowed_schemes] *)
Definition scheme_not_permitted (scheme : string) : bool :=
  match allowed_schemes cls with
  | Some allowed =>
      negb (bool_decide (allowed = ∅)) && negb (bool_decide (lower scheme ∈ allowed))
  | None => false
  end.

(** [validate_parts] *)
Definition validate_parts (parts : Parts) : result Parts :=
  match scheme parts with
  | None => Raise (PydanticValueError "UrlSchemeError")
  | Some sch =>
      if scheme_not_permitted sch then Raise (PydanticValueError "UrlSchemePermittedError")
      else
        _ ← _validate_port (port parts);
        if user_required cls && negb (bool_decide (is_Some (user parts)))
        then Raise (PydanticValueError "UrlUserInfoError")
        else Ok parts
  end.

(** The loop over [('domain', 'ipv4', 'ipv6')] of [validate_host]: the
    first part that is a non-empty text, with its kind; when there is
    none the loop ends on the [ipv6] part. *)
Definition pick_host (parts : Parts) : option string * option HostType :=
  if truthy (domain parts) then (domain parts, Some domain_host)
  else if truthy (ipv4 parts) then (ipv4 parts, Some ipv4_host)
  else if truthy (ipv6 parts) then (ipv6 parts, Some ipv6_host)
  else (ipv6 parts, None).

(** [validate_host]: host, top-level domain, kind of host, and whether
    the text has to be rebuilt. *)
Definition validate_host (parts : Parts)
  : result (option string * option string * option HostType * bool) :=
  match pick_host parts with
  | (None, host_type) =>
      if host_required cls then Raise (PydanticValueError "UrlHostError")
      else Ok (None, None, host_type, false)
  | (Some host, Some domain_host) =>
      match domain_grammar host with
      | None => Raise (PydanticValueError "UrlHostError")
      | Some (tld, is_international, encoded) =>
          if bool_decide (tld = None) && tld_required cls
          then Raise (PydanticValueError "UrlHostTldError")
          else if is_international
               then Ok (Some encoded, tld, Some int_domain_host, true)
               else Ok (Some host, tld, Some domain_host, false)
      end
  | (Some host, host_type) => Ok (Some host, None, host_type, false)
  end.

(** [build], for a class without hidden parts. *)
Definition build (scheme : string) (user password : option string) (host : string)
    (port path query fragment : option string) : string :=
  scheme +:+ "://"
  +:+ (if truthy user then text_or_empty user else "")
  +:+ (if truthy password then ":" +:+ text_or_empty password else "")
  +:+ (if truthy user || truthy password then "@" else "")
  +:+ host
  +:+ (if truthy port then ":" +:+ text_or_empty port else "")
  +:+ (if truthy path then text_or_empty path else "")
  +:+ (if truthy query then "?" +:+ text_or_empty query else "")
  +:+ (if truthy fragment then "#" +:+ text_or_empty fragment else "").

(** [_build_url] *)
Definition _build_url (url : string) (parts : Parts) : result UrlValue :=
  checked ← validate_host parts;
  let '(host, tld, host_type, rebuild) := checked in
  let sch := text_or_empty (scheme parts) in
  Ok {| url_text :=
          if (rebuild : bool)
          then build sch (user parts) (password parts) (text_or_empty host)
                     (port parts) (path parts) (query parts) (fragment parts)
          else url;
        url_scheme := sch;
        url_user := user parts;
        url_password := password parts;
        url_host := host;
        url_tld := tld;
        url_host_type := host_type;
        url_port := port parts;
        url_path := path parts;
        url_query := query parts;
        url_fragment := fragment parts |}.

(** [validate], on a [str] value. *)
Definition validate (value : string) : result UrlValue :=
  let value := if strip_whitespace cls then strip value else value in
  url ← constr_length_validator value;
  match _match_url url with
  | None => Raise (AssertionError "URL regex failed unexpectedly")
  | Some (rest, original_parts) =>
      parts ← validate_parts original_parts;
      if negb (bool_decide (rest = ""))
      then Raise (PydanticValueError "UrlExtraError")
      else _build_url url parts
  end.

End Validate.

(** The scheme the grammar reads off a connection string, as [validate]
    sees it. *)
Definition scheme_of (cls : UrlClass) (value : string) : option string :=
  match _match_url (if strip_whitespace cls then strip value else value) with
  | Some (_, parts) => scheme parts
  | None => None
  end.

(** Whether that scheme, in lower case, is one of the four of
    [SqliteDsn]; a text without a scheme has none of them. *)
Definition sqlite_scheme (value : string) : bool :=
  match scheme_of SqliteDsn value with
  | Some sch => bool_decide (lower sch ∈ SQLITE_SCHEMES)
  | None => false
  end.

(** The same, for the scheme as it is written. *)
Definition sqlite_scheme_verbatim (value : string) : bool :=
  match scheme_of SqliteDsn value with
  | Some sch => bool_decide (sch ∈ SQLITE_SCHEMES)
  | None => false
  end.

(** *** [connection_string: Union[ConfigStr, SqliteDsn]] (line 154) *)

Inductive ConnectionString : Type :=
  | ConfigStr (template_str : string)
  | Dsn (url : UrlValue).

Section ConnectionStringField.

Variable domain_grammar : string -> option (option string * bool * string).

(** The template check of [ConfigStr], a class of [config_str.py]: whether
    the text holds a configuration template to be substituted later. *)
Variable has_config_template : string -> bool.

Definition ConfigStr_validate (v : string) : result string :=
  if has_config_template v then Ok v
  else Raise (ValueError "ConfigStr - contains no config template strings")%string.

(** A field of a [Union] type tries its members from left to right and
    keeps the first that validates; when none does the errors of all of
    them are reported. *)
Definition validate_connection_string (v : string) : result ConnectionString :=
  match ConfigStr_validate v with
  | Ok template_str => Ok (ConfigStr template_str)
  | Raise _ =>
      match validate domain_grammar SqliteDsn v with
      | Ok url => Ok (Dsn url)
      | Raise _ => Raise (ValidationError ["connection_string: ConfigStr"; "connection_string: SqliteDsn"])
      end
  end.

End ConnectionStringField.

(** *** Instances of the two parameters, for running the definitions *)

(** Host names made of letters, digits, [-], [_] and [.] only, none of
    them international; no top-level domain is singled out. *)
Definition plain_domain_grammar (host : string) : option (option string * bool * string) :=
  if forallb (fun c => alpha c || digit c || ch "-" c || ch "_" c || ch "." c)
             (list_ascii_of_string host)
  then Some (None, false, host) else None.

(** A text holds a template when a [$] is directly followed by a brace. *)
Fixpoint dollar_brace (s : string) : bool :=
  match s with
  | String c s' =>
      match s' with
      | String d _ => (ch "$" c && ch "{" d) || dollar_brace s'
      | EmptyString => false
      end
  | EmptyString => false
  end.

End Url.

(** ** Assets and the datasource *)

Module Sqlite.
Import Url.

(** A Python class, by its name.  The partitioner implementation map of
    an asset has partitioner classes as keys and the classes that
    implement them for SQL, or [None], as values. *)
Inductive PyClass : Type := Class (name : string).

#[global] Instance PyClass_eq_dec : EqDecision PyClass.
Proof. solve_decision. Defined.

#[global] Instance PyClass_countable : Countable PyClass :=
  inj_countable' (fun c => match c with Class n => n end) Class
                 (fun c => match c with Class n => eq_refl end).

Definition PartitionerConvertedDatetime : PyClass := Class "PartitionerConvertedDatetime".
Definition SqlitePartitionerConvertedDateTime : PyClass :=
  Class "SqlitePartitionerConvertedDateTime".

(** The asset classes of [sql_datasource.py] and of this module. *)
Inductive AssetClass : Type :=
  | SqlTableAsset
  | SqlQueryAsset
  | SqliteTableAsset
  | SqliteQueryAsset.

(** The attributes of an asset object: its pydantic fields, and the
    private attribute the two constructors below update. *)
Record AssetState : Type := {
  fields : gmap string PyValue;
  _partitioner_implementation_map : gmap PyClass (option PyClass)
}.

Record Asset : Type := {
  class_of : AssetClass;
  state : AssetState
}.

(** [self._partitioner_implementation_map[key] = value] *)
Definition setitem_partitioner (key : PyClass) (value : option PyClass)
    (self : AssetState) : AssetState :=
  {| fields := fields self;
     _partitioner_implementation_map :=
       <[key := value]> (_partitioner_implementation_map self) |}.

Inductive PoolClass : Type := StaticPool | NullPool | QueuePool | SingletonThreadPool.

(** The arguments [sa.create_engine] is called with. *)
Record EngineCall : Type := {
  call_url : PyValue;
  call_poolclass : option PoolClass;
  call_kwargs : gmap string PyValue
}.

Record SqliteDatasource : Type := {
  name : string;
  connection_string : ConnectionString;
  create_temp_table : bool;
  kwargs : gmap string PyValue;
  assets : list Asset
}.

(** Arguments of the two factory methods. *)
Record table_asset_args : Type := {
  ta_name : string;
  ta_table_name : string;
  ta_schema_name : option string;
  ta_order_by : PyValue;
  ta_batch_metadata : PyValue
}.

Record query_asset_args : Type := {
  qa_name : string;
  qa_query : string;
  qa_order_by : PyValue;
  qa_batch_metadata : PyValue
}.

Definition of_optional (o : option string) : PyValue :=
  match o with Some s => PyStr s | None => PyNone end.

Definition table_asset_kwargs (a : table_asset_args) : gmap string PyValue :=
  <["name" := PyStr (ta_name a)]>
  (<["table_name" := PyStr (ta_table_name a)]>
  (<["schema_name" := of_optional (ta_schema_name a)]>
  (<["order_by" := ta_order_by a]>
  (<["batch_metadata" := ta_batch_metadata a]> ∅)))).

Definition query_asset_kwargs (a : query_asset_args) : gmap string PyValue :=
  <["name" := PyStr (qa_name a)]>
  (<["query" := PyStr (qa_query a)]>
  (<["order_by" := qa_order_by a]>
  (<["batch_metadata" := qa_batch_metadata a]> ∅))).

Section Datasource.

(** What the module takes from [sql_datasource.py], [config_str.py] and
    SQLAlchemy. *)

(** [TableAsset.__init__] and [QueryAsset.__init__] of the generic SQL
    datasource: the attributes they leave on the object, or the
    validation error they raise. *)
Variable SqlTableAsset__init__ : gmap string PyValue -> result AssetState.
Variable SqlQueryAsset__init__ : gmap string PyValue -> result AssetState.

(** Whether SQLAlchemy is installed (the truth value of [sa]). *)
Variable sa : bool.

(** [self.dict(exclude=self._get_exec_engine_excludes(),
    config_provider=self._config_provider)]: the fields of the datasource
    with the configuration templates substituted. *)
Variable model_dict_of : SqliteDatasource -> result (gmap string PyValue).

(** [_check_config_substitutions_needed(self, model_dict,
    raise_warning_if_provider_not_present=True)] *)
Variable _check_config_substitutions_needed :
  SqliteDatasource -> gmap string PyValue -> bool -> result unit.

(** [sa.create_engine], given its arguments. *)
Variable Engine : Type.
Variable sa_create_engine : EngineCall -> result Engine.

(** The constructor of [SqliteTableAsset] (lines 107-115): the
    constructor of the generic class, then the update of the map. *)
Definition SqliteTableAsset__init__ (kwargs : gmap string PyValue) : result AssetState :=
  self ← SqlTableAsset__init__ kwargs;
  Ok (setitem_partitioner PartitionerConvertedDatetime
        (Some SqlitePartitionerConvertedDateTime) self).

(** The constructor of [SqliteQueryAsset] (lines 118-126). *)
Definition SqliteQueryAsset__init__ (kwargs : gmap string PyValue) : result AssetState :=
  self ← SqlQueryAsset__init__ kwargs;
  Ok (setitem_partitioner PartitionerConvertedDatetime
        (Some SqlitePartitionerConvertedDateTime) self).

(** Calling a class: a new object of that class, initialised by the
    [__init__] the class resolves to. *)
Definition construct (cls : AssetClass) (kwargs : gmap string PyValue) : result Asset :=
  st ← match cls with
       | SqlTableAsset => SqlTableAsset__init__ kwargs
       | SqlQueryAsset => SqlQueryAsset__init__ kwargs
       | SqliteTableAsset => SqliteTableAsset__init__ kwargs
       | SqliteQueryAsset => SqliteQueryAsset__init__ kwargs
       end;
  Ok {| class_of := cls; state := st |}.

(** The generic constructor an asset class calls first, and the classes
    of this module. *)
Definition generic_constructor (cls : AssetClass)
  : gmap string PyValue -> result AssetState :=
  match cls with
  | SqlTableAsset | SqliteTableAsset => SqlTableAsset__init__
  | SqlQueryAsset | SqliteQueryAsset => SqlQueryAsset__init__
  end.

Definition sqlite_asset_class (cls : AssetClass) : bool :=
  match cls with
  | SqliteTableAsset | SqliteQueryAsset => true
  | SqlTableAsset | SqlQueryAsset => false
  end.

(** Class attributes of [SqliteDatasource] (lines 143-157). *)
Definition asset_types : list AssetClass := [SqliteTableAsset; SqliteQueryAsset].

Definition _poolclass : option PoolClass :=
  if sa then Some StaticPool else None.

Definition _TableAsset : AssetClass := SqliteTableAsset.
Definition _QueryAsset : AssetClass := SqliteQueryAsset.

(** [d.pop(key)] and [d.pop(key, default)] *)
Definition pop (d : gmap string PyValue) (key : string)
  : result (PyValue * gmap string PyValue) :=
  match d !! key with
  | Some v => Ok (v, delete key d)
  | None => Raise (KeyError key)
  end.

Definition pop_default (d : gmap string PyValue) (key : string) (dflt : PyValue)
  : PyValue * gmap string PyValue :=
  match d !! key with
  | Some v => (v, delete key d)
  | None => (dflt, d)
  end.

(** The call [f(connection_string, poolclass=p, **kwargs)]: the value
    after [**] has to be a mapping, and a keyword given twice is a
    [TypeError] before [f] is entered. *)
Definition engine_arguments (connection_string : PyValue) (p : option PoolClass)
    (kwargs : PyValue) : result EngineCall :=
  match kwargs with
  | PyDict d =>
      if bool_decide (is_Some (d !! "poolclass"))
      then Raise (TypeError "got multiple values for keyword argument 'poolclass'")
      else Ok {| call_url := connection_string; call_poolclass := p; call_kwargs := d |}
  | _ => Raise (TypeError "argument after ** must be a mapping")
  end.

(** The arguments [_create_engine] (lines 159-176) reaches
    [sa.create_engine] with. *)
Definition _create_engine_call (self : SqliteDatasource) : result EngineCall :=
  model_dict ← model_dict_of self;
  _ ← _check_config_substitutions_needed self model_dict true;
  popped ← pop model_dict "connection_string";
  let '(connection_string, model_dict) := popped in
  let '(kwargs, model_dict) := pop_default model_dict "kwargs" (PyDict ∅) in
  engine_arguments connection_string _poolclass kwargs.

Definition _create_engine (self : SqliteDatasource) : result Engine :=
  call ← _create_engine_call self;
  sa_create_engine call.

(** Modelled from the spec: the two factory methods of the generic SQL
    datasource, [SQLDatasource.add_table_asset] and
    [SQLDatasource.add_query_asset] of [sql_datasource.py], which is not
    among the files verified here.  A factory method creates the asset
    with the asset class the datasource names ([_TableAsset],
    [_QueryAsset]) and adds it to the assets of the datasource. *)
Definition SQLDatasource_add_asset (cls : AssetClass) (kwargs : gmap string PyValue)
  : method SqliteDatasource Asset :=
  fun self =>
    match construct cls kwargs with
    | Ok asset =>
        (Ok asset,
         {| name := name self;
            connection_string := connection_string self;
            create_temp_table := create_temp_table self;
            kwargs := Sqlite.kwargs self;
            assets := (assets self ++ [asset])%list |})
    | Raise e => (Raise e, self)
    end.

Definition SQLDatasource_add_table_asset (a : table_asset_args)
  : method SqliteDatasource Asset :=
  SQLDatasource_add_asset _TableAsset (table_asset_kwargs a).

Definition SQLDatasource_add_query_asset (a : query_asset_args)
  : method SqliteDatasource Asset :=
  SQLDatasource_add_asset _QueryAsset (query_asset_kwargs a).

(** [typing.cast] returns its second argument. *)
Definition cast {A : Type} (type : AssetClass) (value : A) : A := value.

(** [add_table_asset] (lines 178-197). *)
Definition add_table_asset (a : table_asset_args) : method SqliteDatasource Asset :=
  fun self => cast SqliteTableAsset (SQLDatasource_add_table_asset a self).

(** [add_query_asset] (lines 201-215). *)
Definition add_query_asset (a : query_asset_args) : method SqliteDatasource Asset :=
  fun self => cast SqliteQueryAsset (SQLDatasource_add_query_asset a self).

End Datasource.

End Sqlite.

(** ** The contract test of the datasource endpoint *)

Module ContractTest.

(** *** [uuid.uuid4] and [str] of a UUID *)

(** [UUID(bytes=os.urandom(16), version=4)]: the 128 random bits with the
    variant and the version set. *)
Definition uuid4 (random : Z) : Z :=
  let int := Z.land random (Z.ones 128) in
  let int := Z.land int (Z.lnot (Z.shiftl 0xc000 48)) in
  let int := Z.lor int (Z.shiftl 0x8000 48) in
  let int := Z.land int (Z.lnot (Z.shiftl 0xf000 64)) in
  Z.lor int (Z.shiftl 4 76).

Definition hex_digit (d : Z) : ascii :=
  match d with
  | 0 => "0" | 1 => "1" | 2 => "2" | 3 => "3" | 4 => "4" | 5 => "5" | 6 => "6" | 7 => "7"
  | 8 => "8" | 9 => "9" | 10 => "a" | 11 => "b" | 12 => "c" | 13 => "d" | 14 => "e"
  | _ => "f"
  end%Z%char.

(** [digits] hexadecimal digits of [n], the most significant first. *)
Fixpoint hex (digits : nat) (n : Z) : string :=
  match digits with
  | O => EmptyString
  | S k => hex k (Z.shiftr n 4) +:+ String (hex_digit (Z.land n 15)) EmptyString
  end.

(** [str(u)]: ['%032x' % int], cut as 8-4-4-4-12. *)
Definition uuid_str (int : Z) : string :=
  let h := hex 32 int in
  String.substring 0 8 h +:+ "-" +:+ String.substring 8 4 h +:+ "-"
  +:+ String.substring 12 4 h +:+ "-" +:+ String.substring 16 4 h +:+ "-"
  +:+ String.substring 20 12 h.

(** The characters of the text of a UUID: lower-case hexadecimal digits
    and the dash. *)
Definition uuid_char (c : ascii) : bool :=
  Url.digit c || Url.between "a" "f" c || Ascii.eqb c "-".

Fixpoint all_chars (p : ascii -> bool) (s : string) : bool :=
  match s with
  | String c s' => p c && all_chars p s'
  | EmptyString => true
  end.

(** *** [pathlib.PurePosixPath] *)

Definition SEP : ascii := "/"%char.

Fixpoint lstrip_sep (s : string) : string :=
  match s with
  | String c s' => if Ascii.eqb c SEP then lstrip_sep s' else s
  | EmptyString => EmptyString
  end.

Fixpoint has_sep (s : string) : bool :=
  match s with
  | String c s' => Ascii.eqb c SEP || has_sep s'
  | EmptyString => false
  end.

(** [s.split('/')], as the pieces after the one being read ([cur], kept
    reversed) is closed. *)
Fixpoint split_sep_from (cur : string) (s : string) : list string :=
  match s with
  | String c s' =>
      if Ascii.eqb c SEP then String.rev cur :: split_sep_from EmptyString s'
      else split_sep_from (String c cur) s'
  | EmptyString => [String.rev cur]
  end.

Definition split_sep (s : string) : list string := split_sep_from EmptyString s.

(** [_PosixFlavour.splitroot]: the root and the rest (the drive is always
    empty). *)
Definition splitroot (part : string) : string * string :=
  match part with
  | String c _ =>
      if Ascii.eqb c SEP then
        let stripped_part := lstrip_sep part in
        if Nat.eqb (String.length part - String.length stripped_part) 2
        then ("//", stripped_part)
        else ("/", stripped_part)
      else ("", part)
  | EmptyString => ("", part)
  end.

Definition named (x : string) : bool :=
  negb (String.eqb x "") && negb (String.eqb x ".").

(** The loop of [parse_parts] over the reversed arguments: [parsed] grows
    at its end, and the loop stops at the first argument with a root. *)
Fixpoint parse_loop (it : list string) (parsed : list string) : string * list string :=
  match it with
  | [] => ("", parsed)
  | part :: it' =>
      if String.eqb part "" then parse_loop it' parsed
      else
        let '(root, rel) := splitroot part in
        let parsed :=
          if has_sep rel
          then (parsed ++ filter (fun x => named x = true) (rev (split_sep rel)))%list
          else if named rel then (parsed ++ [rel])%list
          else parsed in
        if negb (String.eqb root "") then (root, parsed)
        else parse_loop it' parsed
  end.

Record PurePath : Type := {
  _root : string;
  _parts : list string
}.

(** [parse_parts] *)
Definition parse_parts (parts : list string) : PurePath :=
  let '(root, parsed) := parse_loop (rev parts) [] in
  let parsed := if negb (String.eqb root "") then (parsed ++ [root])%list else parsed in
  {| _root := root; _parts := rev parsed |}.

(** [pathlib.Path] called with [str] arguments. *)
Definition Path (args : list string) : PurePath := parse_parts args.

Fixpoint join_sep (l : list string) : string :=
  match l with
  | [] => ""
  | [x] => x
  | x :: l' => x +:+ "/" +:+ join_sep l'
  end.

(** [_format_parsed_parts] and [__str__] *)
Definition _format_parsed_parts (p : PurePath) : string :=
  if negb (String.eqb (_root p) "") then _root p +:+ join_sep (tail (_parts p))
  else join_sep (_parts p).

Definition path_str (p : PurePath) : string :=
  let s := _format_parsed_parts p in
  if String.eqb s "" then "." else s.

(** *** The body matchers of [pact] and the interaction *)

#[warnings="-register-all"]
Inductive PactBody : Type :=
  | Value (v : PyValue)
  | Dict (d : list (string * PactBody))
  | Like (matcher : PactBody)
  | FormatUuid.

Record ContractInteraction : Type := {
  method : string;
  upon_receiving : string;
  given : string;
  response_status : Z;
  response_body : PactBody
}.

(** [DATASOURCE_MIN_RESPONSE_BODY] (lines 15-21). *)
Definition DATASOURCE_MIN_RESPONSE_BODY : PactBody :=
  Dict [("data", Like (Dict [("id", FormatUuid)]))].

(** The list given to [pytest.mark.parametrize] (lines 27-35). *)
Definition contract_interactions : list ContractInteraction :=
  [ {| method := "PUT";
       upon_receiving := "a request to add a Data Source";
       given := "the Data Source does not exist";
       response_status := 200;
       response_body := DATASOURCE_MIN_RESPONSE_BODY |} ].

(** The path of [test_datasource] (lines 43-45); [random] is what
    [uuid.uuid4] draws. *)
Definition request_path (existing_organization_id : string) (random : Z) : PurePath :=
  Path ["/"; "organizations"; existing_organization_id; "datasources";
        uuid_str (uuid4 random)].

(** [test_datasource] (lines 37-46). *)
Definition test_datasource {A : Type}
    (contract_interaction : ContractInteraction)
    (run_pact_test : PurePath -> ContractInteraction -> A)
    (existing_organization_id : string) (random : Z) : A :=
  let path := request_path existing_organization_id random in
  run_pact_test path contract_interaction.

(** One run of the test function per element of the list. *)
Definition test_runs {A : Type}
    (run_pact_test : PurePath -> ContractInteraction -> A)
    (existing_organization_id : string) (randoms : list Z) : list A :=
  zip_with (fun ci random => test_datasource ci run_pact_test existing_organization_id random)
           contract_interactions randoms.

End ContractTest.

(** ** Instances of what the module takes from elsewhere

    Concrete stand-ins for the generic SQL classes, the substitution of
    configuration templates and SQLAlchemy, on which the definitions above
    can be run. *)

Module Instances.
Import Url Sqlite.

(** A partitioner implementation map with two generic entries and no
    implementation for [PartitionerConvertedDatetime]. *)
Definition generic_map : gmap PyClass (option PyClass) :=
  <[Class "PartitionerYear" := Some (Class "SqlPartitionerYear")]>
  (<[Class "PartitionerColumnValue" := Some (Class "SqlPartitionerColumnValue")]>
  (<[PartitionerConvertedDatetime := None]> ∅)).

(** A generic constructor: the asset needs a name; the keyword arguments
    become its fields. *)
Definition generic_init (type : string) (kwargs : gmap string PyValue)
  : result AssetState :=
  match kwargs !! "name" with
  | Some (PyStr _) =>
      Ok {| fields := <["type" := PyStr type]> kwargs;
            _partitioner_implementation_map := generic_map |}
  | _ => Raise (ValidationError ["name: field required"])
  end.

(** The fields of the datasource as a dictionary; a template is replaced
    by the text [provider] gives for it. *)
Definition model_dict (provider : string -> string) (self : SqliteDatasource)
  : result (gmap string PyValue) :=
  Ok (<["connection_string" :=
          PyStr match connection_string self with
                | ConfigStr template_str => provider template_str
                | Dsn url => url_text url
                end]>
      (<["kwargs" := PyDict (kwargs self)]> ∅)).

Definition no_check (self : SqliteDatasource) (model_dict : gmap string PyValue)
    (raise_warning_if_provider_not_present : bool) : result unit := Ok tt.

(** An engine that is the record of the call that made it. *)
Definition record_engine (call : EngineCall) : result EngineCall := Ok call.

Definition memory_datasource : SqliteDatasource :=
  {| name := "my_sqlite";
     connection_string := ConfigStr "${SQLITE_URL}";
     create_temp_table := false;
     kwargs := <["echo" := PyBool true]> ∅;
     assets := [] |}.

Definition trips_table : table_asset_args :=
  {| ta_name := "trips"; ta_table_name := "yellow_tripdata";
     ta_schema_name := None; ta_order_by := PyNone; ta_batch_metadata := PyNone |}.

Definition trips_query : query_asset_args :=
  {| qa_name := "recent_trips"; qa_query := "SELECT * FROM yellow_tripdata";
     qa_order_by := PyNone; qa_batch_metadata := PyNone |}.

End Instances.

(** * Properties *)

(** ** The partitioner *)

Section PartitionerFacts.
Import Partitioner.

Lemma contains_lookup (d : gmap string PyValue) (k : string) :
  contains d k = true <-> is_Some (d !! k).
Proof. unfold contains. apply bool_decide_eq_true. Qed.

Lemma contains_absent (d : gmap string PyValue) (k : string) :
  contains d k = false <-> d !! k = None.
Proof.
  unfold contains. rewrite bool_decide_eq_false, eq_None_not_Some. reflexivity.
Qed.

(** The two ways the method ends, by the lookup of the key. *)
Lemma batch_identifiers_present self (options : gmap string PyValue) v :
  options !! "datetime" = Some v ->
  batch_request_options_to_batch_spec_kwarg_identifiers self options
  = Ok (<[column_name self := v]> ∅).
Proof.
  intros Hv. unfold batch_request_options_to_batch_spec_kwarg_identifiers.
  assert (contains options "datetime" = true) as ->
    by (apply contains_lookup; eauto).
  simpl. unfold getitem. rewrite Hv. reflexivity.
Qed.

Lemma batch_identifiers_absent self (options : gmap string PyValue) :
  options !! "datetime" = None ->
  batch_request_options_to_batch_spec_kwarg_identifiers self options
  = Raise (ValueError MISSING_DATETIME).
Proof.
  intros Hv. unfold batch_request_options_to_batch_spec_kwarg_identifiers.
  apply contains_absent in Hv. rewrite Hv. reflexivity.
Qed.

Lemma call_keeps_self (o : op) self : snd (call o self) = self.
Proof. destruct o; reflexivity. Qed.

Lemma after_keeps_self (ops : list op) self : after ops self = self.
Proof.
  unfold after. revert self.
  induction ops as [|o ops IH]; intros self; simpl; [reflexivity|].
  rewrite call_keeps_self. apply IH.
Qed.

Lemma validate_method_name_literal (kwargs : gmap string PyValue) (m : string) :
  validate_method_name kwargs = inr m -> m = METHOD_NAME.
Proof.
  unfold validate_method_name.
  destruct (kwargs !! "method_name") as [[| | |s|]|]; try discriminate.
  - destruct (String.eqb s METHOD_NAME); [congruence | discriminate].
  - congruence.
Qed.

(** What the validating constructor returns has the fields the
    validators of the three fields gave. *)
Lemma init_fields (forbid_extra : bool) (kwargs : gmap string PyValue) self :
  __init__ forbid_extra kwargs = Ok self ->
  validate_str_field kwargs "date_format_string" = inr (date_format_string self)
  /\ validate_str_field kwargs "column_name" = inr (column_name self)
  /\ validate_method_name kwargs = inr (method_name self).
Proof.
  unfold __init__.
  destruct (validate_str_field kwargs "date_format_string") as [?|d]; [discriminate|].
  destruct (validate_str_field kwargs "column_name") as [?|c]; [discriminate|].
  destruct (validate_method_name kwargs) as [?|m]; [discriminate|].
  destruct (extra_errors forbid_extra kwargs); [|discriminate].
  intros [= <-]. auto.
Qed.

Lemma init_method_name (forbid_extra : bool) (kwargs : gmap string PyValue) self :
  __init__ forbid_extra kwargs = Ok self -> method_name self = METHOD_NAME.
Proof.
  intros H. apply init_fields in H as (_ & _ & Hm).
  apply (validate_method_name_literal kwargs _ Hm).
Qed.

End PartitionerFacts.

(** C1. When the batch request options hold the key "datetime", the
    method returns the dictionary with the single entry that maps the
    column name of the partitioner to the value found under that key. *)
Theorem batch_identifiers_single_entry
    (self : Partitioner.PartitionerConvertedDateTime)
    (options : gmap string PyValue) (v : PyValue) :
  options !! "datetime" = Some v ->
  Partitioner.batch_request_options_to_batch_spec_kwarg_identifiers self options
  = Ok ({[ Partitioner.column_name self := v ]} : gmap string PyValue).
Proof.
  intros Hv. rewrite (batch_identifiers_present self options v Hv).
  rewrite insert_empty. reflexivity.
Qed.

Lemma batch_identifiers_single_entry_witness :
  Partitioner.batch_request_options_to_batch_spec_kwarg_identifiers
    {| Partitioner.date_format_string := "%Y-%m-%d";
       Partitioner.column_name := "pickup_datetime";
       Partitioner.method_name := Partitioner.METHOD_NAME |}
    (<["datetime" := PyStr "2020-01-01"]> (<["limit" := PyInt 5]> ∅))
  = Ok ({[ "pickup_datetime" := PyStr "2020-01-01" ]} : gmap string PyValue).
Proof.
  apply (batch_identifiers_single_entry
           {| Partitioner.date_format_string := "%Y-%m-%d";
              Partitioner.column_name := "pickup_datetime";
              Partitioner.method_name := Partitioner.METHOD_NAME |}
           (<["datetime" := PyStr "2020-01-01"]> (<["limit" := PyInt 5]> ∅))
           (PyStr "2020-01-01")).
  reflexivity.
Defined.

(** C2. The keyword arguments handed to the partitioning method have
    exactly the keys "column_name" and "date_format_string", bound to the
    two fields of the same names. *)
Theorem partitioner_method_kwargs_two_keys
    (self : Partitioner.PartitionerConvertedDateTime) :
  dom (Partitioner.partitioner_method_kwargs self)
    = ({[ "column_name"; "date_format_string" ]} : gset string)
  /\ Partitioner.partitioner_method_kwargs self !! "column_name"
     = Some (PyStr (Partitioner.column_name self))
  /\ Partitioner.partitioner_method_kwargs self !! "date_format_string"
     = Some (PyStr (Partitioner.date_format_string self)).
Proof.
  unfold Partitioner.partitioner_method_kwargs. split; [|split].
  - rewrite !dom_insert_L, dom_empty_L. set_solver.
  - rewrite lookup_insert_ne by discriminate. apply lookup_insert_eq.
  - apply lookup_insert_eq.
Qed.

(** C8. The method raises [ValueError] exactly when the key "datetime" is
    missing from the options, and the call leaves the partitioner as it
    was (its three fields are those it had before), in the error case as
    in the other. *)
Theorem batch_identifiers_value_error_iff_absent
    (self : Partitioner.PartitionerConvertedDateTime)
    (options : gmap string PyValue) :
  ((exists msg,
      fst (Partitioner.call (Partitioner.BatchSpecKwargIdentifiers options) self)
      = Raise (ValueError msg))
   <-> options !! "datetime" = None)
  /\ (returns (Partitioner.batch_request_options_to_batch_spec_kwarg_identifiers self options)
      = false
      <-> options !! "datetime" = None)
  /\ snd (Partitioner.call (Partitioner.BatchSpecKwargIdentifiers options) self) = self.
Proof.
  split; [|split]; [| |reflexivity].
  - simpl. destruct (options !! "datetime") as [v|] eqn:Hv.
    + rewrite (batch_identifiers_present self options v Hv). simpl.
      split; [intros [msg H]; discriminate | discriminate].
    + rewrite (batch_identifiers_absent self options Hv). simpl.
      split; [reflexivity | intros _; eexists; reflexivity].
  - destruct (options !! "datetime") as [v|] eqn:Hv.
    + rewrite (batch_identifiers_present self options v Hv). simpl.
      split; discriminate.
    + rewrite (batch_identifiers_absent self options Hv). simpl.
      split; reflexivity.
Qed.

(** C9, as the code has it.  [param_names] is the list with the single
    name "datetime" for every partitioner, whatever its fields and whatever
    calls of the three methods were made on it; [method_name] is
    "partition_on_converted_datetime" for every partitioner that the
    validating constructor returned, and the three methods leave it so. *)
Theorem param_names_and_method_name_fixed
    (forbid_extra : bool) (kwargs : gmap string PyValue)
    (self other : Partitioner.PartitionerConvertedDateTime)
    (ops : list Partitioner.op) :
  Partitioner.__init__ forbid_extra kwargs = Ok self ->
  Partitioner.param_names (Partitioner.after ops other) = ["datetime"]
  /\ Partitioner.param_names (Partitioner.after ops self) = ["datetime"]
  /\ Partitioner.method_name (Partitioner.after ops self)
     = "partition_on_converted_datetime".
Proof.
  intros Hinit. rewrite !after_keeps_self. split; [reflexivity|]. split; [reflexivity|].
  apply (init_method_name forbid_extra kwargs self Hinit).
Qed.

Lemma param_names_and_method_name_fixed_witness :
  let kwargs : gmap string PyValue :=
    <["date_format_string" := PyStr "%Y-%m-%d"]>
    (<["column_name" := PyStr "pickup_datetime"]>
    (<["method_name" := PyStr "partition_on_converted_datetime"]> ∅)) in
  let self := {| Partitioner.date_format_string := "%Y-%m-%d";
                 Partitioner.column_name := "pickup_datetime";
                 Partitioner.method_name := "partition_on_converted_datetime" |} in
  let other := Partitioner.construct "%Y" "day" (Some "another name") in
  let ops := [Partitioner.BatchSpecKwargIdentifiers ∅; Partitioner.ParamNames;
              Partitioner.PartitionerMethodKwargs] in
  Partitioner.__init__ true kwargs = Ok self
  /\ Partitioner.param_names (Partitioner.after ops other) = ["datetime"]
  /\ Partitioner.param_names (Partitioner.after ops self) = ["datetime"]
  /\ Partitioner.method_name (Partitioner.after ops self)
     = "partition_on_converted_datetime".
Proof.
  intros kwargs self other ops.
  assert (Partitioner.__init__ true kwargs = Ok self) as Hinit
    by (vm_compute; reflexivity).
  split; [exact Hinit|].
  apply (param_names_and_method_name_fixed true kwargs self other ops Hinit).
Defined.

(** C9, as stated, does not hold: a partitioner built by [construct],
    which validates nothing, carries the method name it was given, and an
    assignment to [method_name] replaces the name of a validated one. *)
Lemma method_name_not_fixed_by_construct :
  ~ (forall self : Partitioner.PartitionerConvertedDateTime,
        Partitioner.param_names self = ["datetime"]
        /\ Partitioner.method_name self = "partition_on_converted_datetime").
Proof.
  intros H.
  destruct (H (Partitioner.construct "%Y-%m-%d" "pickup_datetime" (Some "another name")))
    as [_ Hname].
  discriminate Hname.
Qed.

Example method_name_assigned :
  let self := {| Partitioner.date_format_string := "%Y-%m-%d";
                 Partitioner.column_name := "pickup_datetime";
                 Partitioner.method_name := "partition_on_converted_datetime" |} in
  Partitioner.__init__ false
    (<["date_format_string" := PyStr "%Y-%m-%d"]>
       (<["column_name" := PyStr "pickup_datetime"]> ∅)) = Ok self
  /\ Partitioner.method_name (snd (Partitioner.set_method_name "another name" self))
     = "another name".
Proof. split; vm_compute; reflexivity. Qed.

(** The validating constructor reports what is wrong with each field:
    here a missing date format, a column name that is [None] and a method
    name that is not the permitted one. *)
Example init_reports_every_field :
  exists errors,
    Partitioner.__init__ false
      (<["column_name" := PyNone]> (<["method_name" := PyStr "another name"]> ∅))
    = Raise (ValidationError errors)
    /\ In "date_format_string: value_error.missing" errors
    /\ In "column_name: type_error.none.not_allowed" errors
    /\ In "method_name: value_error.const" errors.
Proof. eexists. split; [vm_compute; reflexivity|]. simpl. auto 6. Qed.

(** ** The connection string *)

Lemma bind_Ok {A B : Type} (a : A) (k : A -> result B) : (Ok a ≫= k) = k a.
Proof. reflexivity. Qed.

Lemma bind_Raise {A B : Type} (e : exn) (k : A -> result B) :
  (Raise e ≫= k) = Raise e.
Proof. reflexivity. Qed.

Lemma bind_returns {A B : Type} (r : result A) (k : A -> result B) (b : B) :
  (r ≫= k) = Ok b -> exists a, r = Ok a /\ k a = Ok b.
Proof. destruct r as [a|e]; simpl; [eauto | discriminate]. Qed.

Section UrlFacts.
Import Url.

Variable domain_grammar : string -> option (option string * bool * string).

Lemma constr_length_validator_value (cls : UrlClass) (v v' : string) :
  constr_length_validator cls v = Ok v' -> v' = v.
Proof.
  unfold constr_length_validator.
  destruct (_ <? _)%N; [discriminate|].
  destruct (_ <? _)%N; [discriminate|]. congruence.
Qed.

Lemma sqlite_schemes_not_empty : SQLITE_SCHEMES <> ∅.
Proof.
  intros H. assert ("sqlite" ∈ (∅ : gset string)) as Hin
    by (rewrite <- H; unfold SQLITE_SCHEMES; set_solver).
  set_solver.
Qed.

Lemma scheme_not_permitted_sqlite (sch : string) :
  scheme_not_permitted SqliteDsn sch = negb (bool_decide (lower sch ∈ SQLITE_SCHEMES)).
Proof.
  unfold scheme_not_permitted. cbn [allowed_schemes SqliteDsn].
  rewrite (bool_decide_eq_false_2 _ sqlite_schemes_not_empty). reflexivity.
Qed.



End UrlFacts.




(** The scheme is compared in lower case: an upper-case spelling of a
    SQLite scheme is validated too. *)
Example sqlite_dsn_scheme_case :
  Url.sqlite_scheme_verbatim "SQLITE:///path/to/file.db" = false
  /\ Url.sqlite_scheme "SQLITE:///path/to/file.db" = true
  /\ returns (Url.validate Url.plain_domain_grammar Url.SqliteDsn
                "SQLITE:///path/to/file.db") = true.
Proof. repeat split; vm_compute; reflexivity. Qed.

Section HostFacts.
Import Url.

Variable domain_grammar : string -> option (option string * bool * string).





End HostFacts.



(** The same text is refused by a URL class that keeps the default
    [host_required = True] of [AnyUrl]. *)
Example any_url_requires_host :
  Url.validate Url.plain_domain_grammar Url.AnyUrl "sqlite:///path/to/file.db"
  = Raise (PydanticValueError "UrlHostError").
Proof. vm_compute. reflexivity. Qed.

(** ** Assets and the datasource *)

Section DatasourceFacts.
Import Sqlite.

Variable SqlTableAsset__init__ : gmap string PyValue -> result AssetState.
Variable SqlQueryAsset__init__ : gmap string PyValue -> result AssetState.

Lemma construct_class (cls : AssetClass) (kwargs : gmap string PyValue) (asset : Asset) :
  construct SqlTableAsset__init__ SqlQueryAsset__init__ cls kwargs = Ok asset ->
  class_of asset = cls.
Proof.
  unfold construct. intros H.
  apply bind_returns in H as (st & _ & [= <-]). reflexivity.
Qed.

Lemma construct_sqlite (cls : AssetClass) (kwargs : gmap string PyValue) :
  sqlite_asset_class cls = true ->
  construct SqlTableAsset__init__ SqlQueryAsset__init__ cls kwargs
  = base ← generic_constructor SqlTableAsset__init__ SqlQueryAsset__init__ cls kwargs;
    Ok {| class_of := cls;
          state := setitem_partitioner PartitionerConvertedDatetime
                     (Some SqlitePartitionerConvertedDateTime) base |}.
Proof.
  destruct cls; try discriminate; intros _; unfold construct, generic_constructor;
    [unfold SqliteTableAsset__init__ | unfold SqliteQueryAsset__init__];
    (destruct (_ kwargs) as [base|e]; reflexivity).
Qed.

(** The construction of a SQLite asset raises exactly when the generic
    constructor does. *)
Lemma construct_sqlite_returns (cls : AssetClass) (kwargs : gmap string PyValue) :
  sqlite_asset_class cls = true ->
  returns (construct SqlTableAsset__init__ SqlQueryAsset__init__ cls kwargs)
  = returns (generic_constructor SqlTableAsset__init__ SqlQueryAsset__init__ cls kwargs).
Proof.
  intros Hc. rewrite (construct_sqlite cls kwargs Hc).
  destruct (generic_constructor _ _ cls kwargs); reflexivity.
Qed.

Lemma add_asset_class (cls : AssetClass) (kwargs : gmap string PyValue)
    (self self' : SqliteDatasource) (asset : Asset) :
  SQLDatasource_add_asset SqlTableAsset__init__ SqlQueryAsset__init__ cls kwargs self
  = (Ok asset, self') ->
  class_of asset = cls /\ assets self' = (assets self ++ [asset])%list.
Proof.
  unfold SQLDatasource_add_asset.
  destruct (construct _ _ cls kwargs) as [a|e] eqn:Hc; [|discriminate].
  intros [= <- <-]. split; [|reflexivity].
  apply (construct_class cls kwargs a Hc).
Qed.

End DatasourceFacts.

(** C5. The construction of a [SqliteTableAsset] or of a
    [SqliteQueryAsset] leaves an asset whose partitioner implementation
    map binds [PartitionerConvertedDatetime] to
    [SqlitePartitionerConvertedDateTime]; every other key is bound, or
    unbound, as the constructor of the generic SQL asset class left it, and
    so are the fields of the asset. *)
Theorem sqlite_asset_swaps_one_partitioner
    (SqlTableAsset__init__ SqlQueryAsset__init__ : gmap string PyValue -> result Sqlite.AssetState)
    (cls : Sqlite.AssetClass) (kwargs : gmap string PyValue) (asset : Sqlite.Asset) :
  Sqlite.sqlite_asset_class cls = true ->
  Sqlite.construct SqlTableAsset__init__ SqlQueryAsset__init__ cls kwargs = Ok asset ->
  exists base : Sqlite.AssetState,
    Sqlite.generic_constructor SqlTableAsset__init__ SqlQueryAsset__init__ cls kwargs = Ok base
    /\ Sqlite.class_of asset = cls
    /\ Sqlite._partitioner_implementation_map (Sqlite.state asset)
         !! Sqlite.PartitionerConvertedDatetime
       = Some (Some Sqlite.SqlitePartitionerConvertedDateTime)
    /\ (forall k : Sqlite.PyClass,
          k <> Sqlite.PartitionerConvertedDatetime ->
          Sqlite._partitioner_implementation_map (Sqlite.state asset) !! k
          = Sqlite._partitioner_implementation_map base !! k)
    /\ Sqlite.fields (Sqlite.state asset) = Sqlite.fields base.
Proof.
  intros Hcls Hc. rewrite (construct_sqlite _ _ cls kwargs Hcls) in Hc.
  apply bind_returns in Hc as (base & Hbase & [= <-]).
  exists base. cbn [Sqlite.class_of Sqlite.state].
  unfold Sqlite.setitem_partitioner.
  cbn [Sqlite._partitioner_implementation_map Sqlite.fields].
  repeat split; [exact Hbase | apply lookup_insert_eq |].
  intros k Hk. apply lookup_insert_ne. congruence.
Qed.

Lemma sqlite_asset_swaps_one_partitioner_witness :
  let kwargs : gmap string PyValue := <["name" := PyStr "trips"]> ∅ in
  let asset :=
    {| Sqlite.class_of := Sqlite.SqliteTableAsset;
       Sqlite.state :=
         Sqlite.setitem_partitioner Sqlite.PartitionerConvertedDatetime
           (Some Sqlite.SqlitePartitionerConvertedDateTime)
           {| Sqlite.fields := <["type" := PyStr "table"]> kwargs;
              Sqlite._partitioner_implementation_map := Instances.generic_map |} |} in
  Sqlite.construct (Instances.generic_init "table") (Instances.generic_init "query")
    Sqlite.SqliteTableAsset kwargs = Ok asset
  /\ exists base : Sqlite.AssetState,
       Sqlite.generic_constructor (Instances.generic_init "table")
         (Instances.generic_init "query") Sqlite.SqliteTableAsset kwargs = Ok base
       /\ Sqlite.class_of asset = Sqlite.SqliteTableAsset
       /\ Sqlite._partitioner_implementation_map (Sqlite.state asset)
            !! Sqlite.PartitionerConvertedDatetime
          = Some (Some Sqlite.SqlitePartitionerConvertedDateTime)
       /\ (forall k : Sqlite.PyClass,
             k <> Sqlite.PartitionerConvertedDatetime ->
             Sqlite._partitioner_implementation_map (Sqlite.state asset) !! k
             = Sqlite._partitioner_implementation_map base !! k)
       /\ Sqlite.fields (Sqlite.state asset) = Sqlite.fields base.
Proof.
  intros kwargs asset.
  assert (Sqlite.construct (Instances.generic_init "table") (Instances.generic_init "query")
            Sqlite.SqliteTableAsset kwargs = Ok asset) as Hc by reflexivity.
  split; [exact Hc|].
  apply (sqlite_asset_swaps_one_partitioner
           (Instances.generic_init "table") (Instances.generic_init "query")
           Sqlite.SqliteTableAsset kwargs asset); [reflexivity | exact Hc].
Defined.

(** C6. Whenever [add_table_asset] returns, what it returns is a
    [SqliteTableAsset], and whenever [add_query_asset] returns, what it
    returns is a [SqliteQueryAsset]; the asset is the last of the assets
    of the datasource. *)
Theorem factory_methods_return_sqlite_assets
    (SqlTableAsset__init__ SqlQueryAsset__init__ : gmap string PyValue -> result Sqlite.AssetState)
    (self : Sqlite.SqliteDatasource) :
  (forall (a : Sqlite.table_asset_args) (asset : Sqlite.Asset)
          (self' : Sqlite.SqliteDatasource),
      Sqlite.add_table_asset SqlTableAsset__init__ SqlQueryAsset__init__ a self
      = (Ok asset, self') ->
      Sqlite.class_of asset = Sqlite.SqliteTableAsset
      /\ Sqlite.assets self' = (Sqlite.assets self ++ [asset])%list)
  /\ (forall (q : Sqlite.query_asset_args) (asset : Sqlite.Asset)
             (self' : Sqlite.SqliteDatasource),
      Sqlite.add_query_asset SqlTableAsset__init__ SqlQueryAsset__init__ q self
      = (Ok asset, self') ->
      Sqlite.class_of asset = Sqlite.SqliteQueryAsset
      /\ Sqlite.assets self' = (Sqlite.assets self ++ [asset])%list).
Proof.
  split; intros args asset self' H.
  - unfold Sqlite.add_table_asset, Sqlite.cast, Sqlite.SQLDatasource_add_table_asset in H.
    apply add_asset_class in H. exact H.
  - unfold Sqlite.add_query_asset, Sqlite.cast, Sqlite.SQLDatasource_add_query_asset in H.
    apply add_asset_class in H. exact H.
Qed.

(** Both factory methods do return, on a datasource without assets. *)
Example factory_methods_return :
  returns (fst (Sqlite.add_table_asset (Instances.generic_init "table")
                  (Instances.generic_init "query") Instances.trips_table
                  Instances.memory_datasource)) = true
  /\ returns (fst (Sqlite.add_query_asset (Instances.generic_init "table")
                     (Instances.generic_init "query") Instances.trips_query
                     Instances.memory_datasource)) = true.
Proof. split; vm_compute; reflexivity. Qed.

Section EngineFacts.
Import Sqlite.

Lemma engine_arguments_pool (cs : PyValue) (p : option PoolClass) (kwargs : PyValue)
    (call : EngineCall) :
  engine_arguments cs p kwargs = Ok call ->
  call_url call = cs /\ call_poolclass call = p
  /\ kwargs = PyDict (call_kwargs call) /\ call_kwargs call !! "poolclass" = None.
Proof.
  unfold engine_arguments. destruct kwargs as [| | | |d]; try discriminate.
  case_bool_decide as Hd; [discriminate|].
  intros [= <-]. cbn. repeat split. apply eq_None_not_Some. exact Hd.
Qed.

Lemma pop_lookup (d : gmap string PyValue) (key : string) (v : PyValue)
    (d' : gmap string PyValue) :
  pop d key = Ok (v, d') -> d !! key = Some v /\ d' = delete key d.
Proof.
  unfold pop. destruct (d !! key) as [w|]; [|discriminate].
  intros [= <- <-]. split; reflexivity.
Qed.

Variable sa : bool.
Variable model_dict_of : SqliteDatasource -> result (gmap string PyValue).
Variable check : SqliteDatasource -> gmap string PyValue -> bool -> result unit.

(** What [_create_engine] passes on, read off a call it reached. *)
Lemma create_engine_call_inv (self : SqliteDatasource) (call : EngineCall) :
  _create_engine_call sa model_dict_of check self = Ok call ->
  exists (model_dict : gmap string PyValue) (cs : PyValue),
    model_dict_of self = Ok model_dict
    /\ check self model_dict true = Ok tt
    /\ model_dict !! "connection_string" = Some cs
    /\ call_url call = cs
    /\ call_poolclass call = _poolclass sa
    /\ call_kwargs call !! "poolclass" = None.
Proof.
  unfold _create_engine_call. intros H.
  apply bind_returns in H as (md & Hmd & H).
  apply bind_returns in H as ([] & Hcheck & H).
  apply bind_returns in H as ([cs md'] & Hpop & H).
  apply pop_lookup in Hpop as [Hcs _].
  destruct (pop_default md' "kwargs" (PyDict ∅)) as [kw md''].
  apply engine_arguments_pool in H as (Hurl & Hpool & _ & Hkw).
  exists md, cs. repeat split; assumption.
Qed.

(** The call is reached whenever the substitution succeeds, the
    connection string is among the fields, and the keyword arguments of
    the datasource are a dictionary without the key "poolclass". *)
Lemma create_engine_call_reached (self : SqliteDatasource)
    (model_dict : gmap string PyValue) (cs : PyValue) (kw : gmap string PyValue) :
  model_dict_of self = Ok model_dict ->
  check self model_dict true = Ok tt ->
  model_dict !! "connection_string" = Some cs ->
  model_dict !! "kwargs" = Some (PyDict kw) ->
  kw !! "poolclass" = None ->
  _create_engine_call sa model_dict_of check self
  = Ok {| call_url := cs; call_poolclass := _poolclass sa; call_kwargs := kw |}.
Proof.
  intros Hmd Hcheck Hcs Hkw Hpool. unfold _create_engine_call.
  rewrite Hmd, bind_Ok, Hcheck, bind_Ok. unfold pop. rewrite Hcs, bind_Ok.
  unfold pop_default. rewrite lookup_delete_ne by discriminate. rewrite Hkw.
  unfold engine_arguments.
  rewrite bool_decide_eq_false_2; [reflexivity|].
  rewrite Hpool. intros [? ?]; discriminate.
Qed.

End EngineFacts.

(** C4. With SQLAlchemy installed, an engine that [_create_engine]
    returns was created by [sa.create_engine] called with
    [poolclass = StaticPool], the class attribute [_poolclass], and with
    the connection string of the dictionary in which the configuration
    templates have been substituted. *)
Theorem create_engine_uses_static_pool
    (model_dict_of : Sqlite.SqliteDatasource -> result (gmap string PyValue))
    (_check_config_substitutions_needed :
       Sqlite.SqliteDatasource -> gmap string PyValue -> bool -> result unit)
    (Engine : Type) (sa_create_engine : Sqlite.EngineCall -> result Engine)
    (self : Sqlite.SqliteDatasource) (engine : Engine) :
  Sqlite._create_engine true model_dict_of _check_config_substitutions_needed
    Engine sa_create_engine self = Ok engine ->
  Sqlite._poolclass true = Some Sqlite.StaticPool
  /\ exists (call : Sqlite.EngineCall) (model_dict : gmap string PyValue) (cs : PyValue),
       sa_create_engine call = Ok engine
       /\ Sqlite.call_poolclass call = Some Sqlite.StaticPool
       /\ model_dict_of self = Ok model_dict
       /\ model_dict !! "connection_string" = Some cs
       /\ Sqlite.call_url call = cs.
Proof.
  intros H. split; [reflexivity|].
  unfold Sqlite._create_engine in H.
  apply bind_returns in H as (call & Hcall & Hengine).
  apply create_engine_call_inv in Hcall
    as (md & cs & Hmd & _ & Hcs & Hurl & Hpool & _).
  exists call, md, cs. repeat split; assumption.
Qed.

Lemma create_engine_uses_static_pool_witness :
  let engine :=
    {| Sqlite.call_url := PyStr "sqlite:///path/to/file.db";
       Sqlite.call_poolclass := Some Sqlite.StaticPool;
       Sqlite.call_kwargs := <["echo" := PyBool true]> ∅ |} in
  let model_dict_of := Instances.model_dict (fun _ => "sqlite:///path/to/file.db") in
  Sqlite._create_engine true model_dict_of Instances.no_check Sqlite.EngineCall
    Instances.record_engine Instances.memory_datasource = Ok engine
  /\ exists (call : Sqlite.EngineCall) (model_dict : gmap string PyValue) (cs : PyValue),
       Instances.record_engine call = Ok engine
       /\ Sqlite.call_poolclass call = Some Sqlite.StaticPool
       /\ model_dict_of Instances.memory_datasource = Ok model_dict
       /\ model_dict !! "connection_string" = Some cs
       /\ Sqlite.call_url call = cs.
Proof.
  intros engine model_dict_of.
  assert (Sqlite._create_engine true model_dict_of Instances.no_check Sqlite.EngineCall
            Instances.record_engine Instances.memory_datasource = Ok engine) as Hrun
    by (vm_compute; reflexivity).
  split; [exact Hrun|].
  apply (create_engine_uses_static_pool model_dict_of Instances.no_check
           Sqlite.EngineCall Instances.record_engine Instances.memory_datasource
           engine Hrun).
Defined.

(** A keyword argument "poolclass" of the datasource does not replace the
    pool: the call raises before [sa.create_engine] is entered. *)
Example poolclass_keyword_is_refused :
  Sqlite.engine_arguments (PyStr "sqlite://") (Some Sqlite.StaticPool)
    (PyDict (<["poolclass" := PyStr "NullPool"]> ∅))
  = Raise (TypeError "got multiple values for keyword argument 'poolclass'").
Proof. vm_compute. reflexivity. Qed.

(** ** The contract test *)

Section TextFacts.
Import ContractTest.

Lemma all_chars_app (p : ascii -> bool) (s t : string) :
  all_chars p (s +:+ t) = all_chars p s && all_chars p t.
Proof.
  induction s as [|c s IH]; simpl; [reflexivity|].
  rewrite IH. apply andb_assoc.
Qed.

Lemma all_chars_substring (p : ascii -> bool) (s : string) :
  forall n m, all_chars p s = true -> all_chars p (String.substring n m s) = true.
Proof.
  induction s as [|c s IH]; intros n m H.
  - destruct n, m; reflexivity.
  - simpl in H. apply andb_true_iff in H as [Hc Hs].
    destruct n as [|n].
    + destruct m as [|m]; simpl; [reflexivity|].
      rewrite Hc. simpl. apply IH. exact Hs.
    + simpl. apply IH. exact Hs.
Qed.

Lemma string_length_app (s t : string) :
  String.length (s +:+ t) = String.length s + String.length t.
Proof. induction s as [|c s IH]; simpl; [reflexivity|]. rewrite IH. reflexivity. Qed.

Lemma string_length_substring (s : string) :
  forall n m, n + m <= String.length s -> String.length (String.substring n m s) = m.
Proof.
  induction s as [|c s IH]; intros n m H; simpl in H.
  - destruct n, m; simpl; lia.
  - destruct n as [|n].
    + destruct m as [|m]; simpl; [reflexivity|]. rewrite IH by lia. reflexivity.
    + simpl. apply IH. lia.
Qed.

Lemma hex_digit_uuid_char (d : Z) : uuid_char (hex_digit d) = true.
Proof.
  unfold hex_digit.
  destruct d as [|p|p]; try reflexivity.
  do 4 (destruct p as [p|p|]; try reflexivity).
Qed.

Lemma hex_chars (digits : nat) :
  forall n, all_chars uuid_char (hex digits n) = true.
Proof.
  induction digits as [|k IH]; intros n; simpl; [reflexivity|].
  rewrite all_chars_app, IH. simpl. rewrite hex_digit_uuid_char. reflexivity.
Qed.

Lemma hex_length (digits : nat) : forall n, String.length (hex digits n) = digits.
Proof.
  induction digits as [|k IH]; intros n; simpl; [reflexivity|].
  rewrite string_length_app, IH. simpl. lia.
Qed.

(** The text of a UUID: 36 characters, hexadecimal digits and dashes. *)
Lemma uuid_str_chars (int : Z) : all_chars uuid_char (uuid_str int) = true.
Proof.
  unfold uuid_str. pose proof (hex_chars 32 int) as Hh.
  rewrite !all_chars_app.
  rewrite !(all_chars_substring uuid_char (hex 32 int)) by exact Hh.
  reflexivity.
Qed.

Lemma uuid_str_length (int : Z) : String.length (uuid_str int) = 36.
Proof.
  unfold uuid_str. pose proof (hex_length 32 int) as Hh.
  rewrite !string_length_app.
  rewrite !(string_length_substring (hex 32 int)) by lia.
  reflexivity.
Qed.

Lemma uuid_chars_no_sep (s : string) : all_chars uuid_char s = true -> has_sep s = false.
Proof.
  induction s as [|c s IH]; simpl; [reflexivity|].
  intros H. apply andb_true_iff in H as [Hc Hs]. rewrite (IH Hs), orb_false_r.
  destruct (Ascii.eqb_spec c SEP) as [->|]; [discriminate Hc | reflexivity].
Qed.

Lemma uuid_str_named (int : Z) : named (uuid_str int) = true.
Proof.
  unfold named.
  destruct (String.eqb_spec (uuid_str int) "") as [H|_].
  { pose proof (uuid_str_length int) as Hl. rewrite H in Hl. discriminate. }
  destruct (String.eqb_spec (uuid_str int) ".") as [H|_]; [|reflexivity].
  pose proof (uuid_str_length int) as Hl. rewrite H in Hl. discriminate.
Qed.

(** One turn of the loop of [parse_parts] on a plain name. *)
Lemma parse_loop_name (part : string) (it parsed : list string) :
  named part = true -> has_sep part = false ->
  parse_loop (part :: it) parsed = parse_loop it (parsed ++ [part])%list.
Proof.
  intros Hn Hs. simpl.
  assert (String.eqb part "" = false) as ->.
  { unfold named in Hn. destruct (String.eqb part ""); [discriminate|reflexivity]. }
  assert (splitroot part = ("", part)) as ->.
  { unfold splitroot. destruct part as [|c part]; [reflexivity|].
    simpl in Hs. apply orb_false_iff in Hs as [-> _]. reflexivity. }
  rewrite Hs, Hn. reflexivity.
Qed.

Lemma request_path_parts (org : string) (random : Z) :
  named org = true -> has_sep org = false ->
  request_path org random
  = {| _root := "/";
       _parts := ["/"; "organizations"; org; "datasources"; uuid_str (uuid4 random)] |}.
Proof.
  intros Hn Hs. unfold request_path, Path, parse_parts.
  cbn [rev List.app].
  rewrite (parse_loop_name (uuid_str (uuid4 random)))
    by (apply uuid_str_named || (apply uuid_chars_no_sep, uuid_str_chars)).
  rewrite (parse_loop_name "datasources") by reflexivity.
  rewrite (parse_loop_name org) by assumption.
  rewrite (parse_loop_name "organizations") by reflexivity.
  reflexivity.
Qed.

End TextFacts.

(** C7. The test is run for one interaction: a PUT answered with status
    200 and a body whose "data" object holds an "id" in UUID format.  For
    an organization id that is a single path component, the path the
    interaction is run against is
    /organizations/<organization id>/datasources/<uuid>, where the last
    component is the text of the UUID drawn for this run. *)
Theorem contract_test_one_put_exchange
    (A : Type)
    (run_pact_test : ContractTest.PurePath -> ContractTest.ContractInteraction -> A)
    (existing_organization_id : string) (random : Z) :
  ContractTest.named existing_organization_id = true ->
  ContractTest.has_sep existing_organization_id = false ->
  exists ci : ContractTest.ContractInteraction,
    ContractTest.contract_interactions = [ci]
    /\ ContractTest.method ci = "PUT"
    /\ ContractTest.response_status ci = 200%Z
    /\ ContractTest.response_body ci
       = ContractTest.Dict
           [("data", ContractTest.Like (ContractTest.Dict [("id", ContractTest.FormatUuid)]))]
    /\ ContractTest.test_runs run_pact_test existing_organization_id [random]
       = [run_pact_test (ContractTest.request_path existing_organization_id random) ci]
    /\ ContractTest.path_str (ContractTest.request_path existing_organization_id random)
       = "/organizations/" +:+ existing_organization_id +:+ "/datasources/"
         +:+ ContractTest.uuid_str (ContractTest.uuid4 random)
    /\ String.length (ContractTest.uuid_str (ContractTest.uuid4 random)) = 36
    /\ ContractTest.all_chars ContractTest.uuid_char
         (ContractTest.uuid_str (ContractTest.uuid4 random)) = true.
Proof.
  intros Hn Hs. eexists. split; [reflexivity|].
  cbn [ContractTest.method ContractTest.response_status ContractTest.response_body].
  do 3 (split; [reflexivity|]).
  split; [reflexivity|]. split; [|split].
  - rewrite (request_path_parts existing_organization_id random Hn Hs).
    reflexivity.
  - apply uuid_str_length.
  - apply uuid_str_chars.
Qed.

Lemma contract_test_one_put_exchange_witness :
  ContractTest.path_str
    (ContractTest.request_path "0ccac18e-7631-4bdd-8a42-3c35cce574c6" 77)
  = "/organizations/0ccac18e-7631-4bdd-8a42-3c35cce574c6/datasources/00000000-0000-4000-8000-00000000004d".
Proof.
  destruct (contract_test_one_put_exchange unit (fun _ _ => tt)
              "0ccac18e-7631-4bdd-8a42-3c35cce574c6" 77 eq_refl eq_refl)
    as (ci & _ & _ & _ & _ & _ & Hpath & _).
  rewrite Hpath. vm_compute. reflexivity.
Defined.

(** * Further properties of the code *)

(** ** The partitioner *)

(** X1. The batch identifiers depend on the options through the key
    "datetime" alone: adding, changing or removing any other key leaves
    the answer, value or exception, as it was. *)
Theorem batch_identifiers_ignore_other_options
    (self : Partitioner.PartitionerConvertedDateTime)
    (options : gmap string PyValue) (k : string) (v : PyValue) :
  k <> "datetime" ->
  Partitioner.batch_request_options_to_batch_spec_kwarg_identifiers self
    (<[k := v]> options)
  = Partitioner.batch_request_options_to_batch_spec_kwarg_identifiers self options
  /\ Partitioner.batch_request_options_to_batch_spec_kwarg_identifiers self
       (delete k options)
     = Partitioner.batch_request_options_to_batch_spec_kwarg_identifiers self options.
Proof.
  intros Hk. split.
  - destruct (options !! "datetime") as [w|] eqn:Hw.
    + rewrite (batch_identifiers_present self options w Hw).
      apply batch_identifiers_present. rewrite lookup_insert_ne by exact Hk. exact Hw.
    + rewrite (batch_identifiers_absent self options Hw).
      apply batch_identifiers_absent. rewrite lookup_insert_ne by exact Hk. exact Hw.
  - destruct (options !! "datetime") as [w|] eqn:Hw.
    + rewrite (batch_identifiers_present self options w Hw).
      apply batch_identifiers_present. rewrite lookup_delete_ne by exact Hk. exact Hw.
    + rewrite (batch_identifiers_absent self options Hw).
      apply batch_identifiers_absent. rewrite lookup_delete_ne by exact Hk. exact Hw.
Qed.

Lemma batch_identifiers_ignore_other_options_witness :
  let self := {| Partitioner.date_format_string := "%Y-%m-%d";
                 Partitioner.column_name := "pickup_datetime";
                 Partitioner.method_name := Partitioner.METHOD_NAME |} in
  let options : gmap string PyValue := <["datetime" := PyStr "2020-01-01"]> ∅ in
  Partitioner.batch_request_options_to_batch_spec_kwarg_identifiers self
    (<["limit" := PyInt 5]> options)
  = Partitioner.batch_request_options_to_batch_spec_kwarg_identifiers self options.
Proof.
  intros self options.
  apply (batch_identifiers_ignore_other_options self options "limit" (PyInt 5)).
  discriminate.
Defined.

(** X2. The identifier is filed under the column the partitioning
    method is told to partition on: whenever identifiers are returned,
    the value of "column_name" in [partitioner_method_kwargs] is a text,
    the identifiers have that text as their only key, and the value found
    under it is the "datetime" of the options. *)
Theorem batch_identifiers_keyed_by_kwargs_column
    (self : Partitioner.PartitionerConvertedDateTime)
    (options ids : gmap string PyValue) :
  Partitioner.batch_request_options_to_batch_spec_kwarg_identifiers self options = Ok ids ->
  exists column : string,
    Partitioner.partitioner_method_kwargs self !! "column_name" = Some (PyStr column)
    /\ dom ids = ({[ column ]} : gset string)
    /\ ids !! column = options !! "datetime"
    /\ is_Some (options !! "datetime").
Proof.
  intros H. exists (Partitioner.column_name self).
  destruct (options !! "datetime") as [w|] eqn:Hw.
  - rewrite (batch_identifiers_present self options w Hw) in H.
    injection H as <-. split; [|split; [|split]].
    + unfold Partitioner.partitioner_method_kwargs.
      rewrite lookup_insert_ne by discriminate. apply lookup_insert_eq.
    + rewrite dom_insert_L, dom_empty_L. apply union_empty_r_L.
    + apply lookup_insert_eq.
    + eauto.
  - rewrite (batch_identifiers_absent self options Hw) in H. discriminate.
Qed.

Lemma batch_identifiers_keyed_by_kwargs_column_witness :
  let self := {| Partitioner.date_format_string := "%Y-%m-%d";
                 Partitioner.column_name := "pickup_datetime";
                 Partitioner.method_name := Partitioner.METHOD_NAME |} in
  let options : gmap string PyValue := <["datetime" := PyStr "2020-01-01"]> ∅ in
  let ids : gmap string PyValue := <["pickup_datetime" := PyStr "2020-01-01"]> ∅ in
  exists column : string,
    Partitioner.partitioner_method_kwargs self !! "column_name" = Some (PyStr column)
    /\ dom ids = ({[ column ]} : gset string)
    /\ ids !! column = options !! "datetime"
    /\ is_Some (options !! "datetime").
Proof.
  intros self options ids.
  apply (batch_identifiers_keyed_by_kwargs_column self options ids).
  reflexivity.
Defined.

Lemma partitioner_method_kwargs_lookup (p : Partitioner.PartitionerConvertedDateTime) :
  Partitioner.partitioner_method_kwargs p !! "column_name"
  = Some (PyStr (Partitioner.column_name p))
  /\ Partitioner.partitioner_method_kwargs p !! "date_format_string"
     = Some (PyStr (Partitioner.date_format_string p)).
Proof.
  unfold Partitioner.partitioner_method_kwargs. split.
  - rewrite lookup_insert_ne by discriminate. apply lookup_insert_eq.
  - apply lookup_insert_eq.
Qed.

(** X3. [partitioner_method_kwargs] loses nothing of the two fields it
    reports: partitioners with equal keyword arguments have the same
    column name and the same date format. *)
Theorem partitioner_method_kwargs_injective
    (p q : Partitioner.PartitionerConvertedDateTime) :
  Partitioner.partitioner_method_kwargs p = Partitioner.partitioner_method_kwargs q ->
  Partitioner.column_name p = Partitioner.column_name q
  /\ Partitioner.date_format_string p = Partitioner.date_format_string q.
Proof.
  intros H.
  destruct (partitioner_method_kwargs_lookup p) as [Hpc Hpd].
  destruct (partitioner_method_kwargs_lookup q) as [Hqc Hqd].
  rewrite H in Hpc, Hpd. split; congruence.
Qed.

Lemma partitioner_method_kwargs_injective_witness :
  let p := {| Partitioner.date_format_string := "%Y-%m-%d";
              Partitioner.column_name := "pickup_datetime";
              Partitioner.method_name := Partitioner.METHOD_NAME |} in
  let q := {| Partitioner.date_format_string := "%Y-%m-%d";
              Partitioner.column_name := "pickup_datetime";
              Partitioner.method_name := "another name" |} in
  Partitioner.column_name p = Partitioner.column_name q
  /\ Partitioner.date_format_string p = Partitioner.date_format_string q.
Proof.
  intros p q. apply (partitioner_method_kwargs_injective p q). reflexivity.
Defined.

(** ** The engine *)

Section EngineCases.
Import Sqlite.

Variable sa : bool.
Variable model_dict_of : SqliteDatasource -> result (gmap string PyValue).
Variable check : SqliteDatasource -> gmap string PyValue -> bool -> result unit.

(** [_create_engine_call] past the substitution, the check and the first
    [pop]: what is left is the second [pop] and the call. *)
Lemma create_engine_call_popped (self : SqliteDatasource)
    (model_dict : gmap string PyValue) (cs : PyValue) :
  model_dict_of self = Ok model_dict ->
  check self model_dict true = Ok tt ->
  model_dict !! "connection_string" = Some cs ->
  _create_engine_call sa model_dict_of check self
  = engine_arguments cs (_poolclass sa) (default (PyDict ∅) (model_dict !! "kwargs")).
Proof.
  intros Hmd Hcheck Hcs. unfold _create_engine_call.
  rewrite Hmd, bind_Ok, Hcheck, bind_Ok. unfold pop. rewrite Hcs, bind_Ok.
  unfold pop_default. rewrite lookup_delete_ne by discriminate.
  destruct (model_dict !! "kwargs"); reflexivity.
Qed.

Lemma create_engine_call_needs (self : SqliteDatasource) (call : EngineCall) :
  _create_engine_call sa model_dict_of check self = Ok call ->
  exists (model_dict : gmap string PyValue) (cs : PyValue),
    model_dict_of self = Ok model_dict
    /\ check self model_dict true = Ok tt
    /\ model_dict !! "connection_string" = Some cs.
Proof.
  intros H. apply create_engine_call_inv in H as (md & cs & ? & ? & ? & _).
  eauto.
Qed.

Lemma engine_arguments_ok (cs : PyValue) (p : option PoolClass) (kw : gmap string PyValue) :
  kw !! "poolclass" = None ->
  engine_arguments cs p (PyDict kw)
  = Ok {| call_url := cs; call_poolclass := p; call_kwargs := kw |}.
Proof.
  intros Hkw. unfold engine_arguments.
  rewrite bool_decide_eq_false_2; [reflexivity|].
  rewrite Hkw. intros [? ?]; discriminate.
Qed.

End EngineCases.

(** X5. [_create_engine] returns an engine exactly when the substitution
    and the check succeed, the substituted fields hold a
    "connection_string", "kwargs" is absent (then no keyword is passed)
    or a dictionary without the key "poolclass", and [sa.create_engine]
    returns that engine for the connection string, the class attribute
    [_poolclass] and those keywords.  No other field takes part. *)
Theorem create_engine_returns_iff
    (sa : bool)
    (model_dict_of : Sqlite.SqliteDatasource -> result (gmap string PyValue))
    (_check_config_substitutions_needed :
       Sqlite.SqliteDatasource -> gmap string PyValue -> bool -> result unit)
    (Engine : Type) (sa_create_engine : Sqlite.EngineCall -> result Engine)
    (self : Sqlite.SqliteDatasource) (engine : Engine) :
  Sqlite._create_engine sa model_dict_of _check_config_substitutions_needed
    Engine sa_create_engine self = Ok engine
  <-> exists (model_dict : gmap string PyValue) (cs : PyValue) (kw : gmap string PyValue),
        model_dict_of self = Ok model_dict
        /\ _check_config_substitutions_needed self model_dict true = Ok tt
        /\ model_dict !! "connection_string" = Some cs
        /\ (model_dict !! "kwargs" = Some (PyDict kw)
            \/ model_dict !! "kwargs" = None /\ kw = ∅)
        /\ kw !! "poolclass" = None
        /\ sa_create_engine
             {| Sqlite.call_url := cs;
                Sqlite.call_poolclass := if sa then Some Sqlite.StaticPool else None;
                Sqlite.call_kwargs := kw |} = Ok engine.
Proof.
  unfold Sqlite._create_engine. split.
  - intros H. apply bind_returns in H as (call & Hcall & Hengine).
    destruct (create_engine_call_needs sa model_dict_of _ self call Hcall)
      as (md & cs & Hmd & Hcheck & Hcs).
    rewrite (create_engine_call_popped sa model_dict_of _ self md cs Hmd Hcheck Hcs)
      in Hcall.
    apply engine_arguments_pool in Hcall as (Hurl & Hpool & Hkw & Hno).
    exists md, cs, (Sqlite.call_kwargs call).
    repeat (split; [assumption|]). split.
    + destruct (md !! "kwargs") as [v|]; simpl in Hkw.
      * left. congruence.
      * right. split; [reflexivity|]. congruence.
    + split; [exact Hno|]. destruct call as [u p k]. simpl in *. subst u p.
      exact Hengine.
  - intros (md & cs & kw & Hmd & Hcheck & Hcs & Hkw & Hno & Hengine).
    rewrite (create_engine_call_popped sa model_dict_of _ self md cs Hmd Hcheck Hcs).
    assert (default (PyDict ∅) (md !! "kwargs") = PyDict kw) as ->.
    { destruct Hkw as [-> | [-> ->]]; reflexivity. }
    rewrite (engine_arguments_ok cs _ kw Hno), bind_Ok. exact Hengine.
Qed.



(** X7. A substituted dictionary without "connection_string" ends
    [_create_engine] with [KeyError] on that key: the keywords are not
    looked at and [sa.create_engine] is not entered. *)
Theorem create_engine_needs_connection_string
    (sa : bool)
    (model_dict_of : Sqlite.SqliteDatasource -> result (gmap string PyValue))
    (_check_config_substitutions_needed :
       Sqlite.SqliteDatasource -> gmap string PyValue -> bool -> result unit)
    (Engine : Type) (sa_create_engine : Sqlite.EngineCall -> result Engine)
    (self : Sqlite.SqliteDatasource) (model_dict : gmap string PyValue) :
  model_dict_of self = Ok model_dict ->
  _check_config_substitutions_needed self model_dict true = Ok tt ->
  model_dict !! "connection_string" = None ->
  Sqlite._create_engine sa model_dict_of _check_config_substitutions_needed
    Engine sa_create_engine self = Raise (KeyError "connection_string").
Proof.
  intros Hmd Hcheck Hcs. unfold Sqlite._create_engine, Sqlite._create_engine_call.
  rewrite Hmd, bind_Ok, Hcheck, bind_Ok. unfold Sqlite.pop. rewrite Hcs.
  reflexivity.
Qed.

Lemma create_engine_needs_connection_string_witness :
  Sqlite._create_engine true
    (fun _ => Ok (<["kwargs" := PyDict ∅]> ∅)) Instances.no_check
    Sqlite.EngineCall Instances.record_engine Instances.memory_datasource
  = Raise (KeyError "connection_string").
Proof.
  apply (create_engine_needs_connection_string true
           (fun _ => Ok (<["kwargs" := PyDict ∅]> ∅)) Instances.no_check
           Sqlite.EngineCall Instances.record_engine Instances.memory_datasource
           (<["kwargs" := PyDict ∅]> ∅)); reflexivity.
Defined.

(** ** The connection string *)

Section UrlCases.
Import Url.

Variable domain_grammar : string -> option (option string * bool * string).

(** With a host in the parts, [validate_host] does not consult
    [host_required]; without one, it raises exactly when the attribute is
    set. *)
Lemma validate_host_required (cls : UrlClass) (parts : Parts)
    (r : option string * option string * option HostType * bool) :
  validate_host domain_grammar (with_host_required true cls) parts = Ok r
  <-> validate_host domain_grammar (with_host_required false cls) parts = Ok r
      /\ is_Some (fst (fst (fst r))).
Proof.
  unfold validate_host. cbn [host_required tld_required with_host_required].
  destruct (pick_host parts) as [[host|] host_type].
  - destruct host_type as [[]|];
      try (split; [intros [= <-]; split; [reflexivity | eexists; reflexivity]
                  | intros [H _]; exact H]).
    destruct (domain_grammar host) as [[[tld intl] enc]|];
      [|split; [discriminate | intros [H _]; discriminate]].
    destruct (bool_decide (tld = None) && tld_required cls);
      [split; [discriminate | intros [H _]; discriminate]|].
    destruct intl;
      (split; [intros [= <-]; split; [reflexivity | eexists; reflexivity]
              | intros [H _]; exact H]).
  - split; [discriminate|]. intros [[= <-] [x Hx]]. discriminate.
Qed.

Lemma build_url_required (cls : UrlClass) (url : string) (parts : Parts) (u : UrlValue) :
  _build_url domain_grammar (with_host_required true cls) url parts = Ok u
  <-> _build_url domain_grammar (with_host_required false cls) url parts = Ok u
      /\ is_Some (url_host u).
Proof.
  unfold _build_url. split.
  - intros H. apply bind_returns in H as ([[[host tld] ht] rebuild] & Hv & Hu).
    apply validate_host_required in Hv as [Hv Hhost]. rewrite Hv, bind_Ok.
    injection Hu as <-. split; [reflexivity | exact Hhost].
  - intros [H Hhost].
    apply bind_returns in H as ([[[host tld] ht] rebuild] & Hv & Hu).
    injection Hu as <-. simpl in Hhost.
    rewrite (proj2 (validate_host_required cls parts (host, tld, ht, rebuild))
               (conj Hv Hhost)).
    reflexivity.
Qed.

(** What a validated URL says of its scheme. *)
Lemma validate_scheme (cls : UrlClass) (s : string) (u : UrlValue) :
  validate domain_grammar cls s = Ok u ->
  scheme_of cls s = Some (url_scheme u)
  /\ scheme_not_permitted cls (url_scheme u) = false.
Proof.
  unfold validate, scheme_of.
  set (value := if strip_whitespace cls then strip s else s).
  intros H. apply bind_returns in H as (url & Hlen & H).
  apply constr_length_validator_value in Hlen. subst url.
  destruct (_match_url value) as [[rest parts]|]; [|discriminate].
  apply bind_returns in H as (parts' & Hparts & H).
  unfold validate_parts in Hparts.
  destruct (scheme parts) as [sch|] eqn:Hsch; [|discriminate].
  destruct (scheme_not_permitted cls sch) eqn:Hperm; [discriminate|].
  apply bind_returns in Hparts as (_ & _ & Hparts).
  destruct (user_required cls && _); [discriminate|].
  injection Hparts as <-.
  destruct (negb _); [discriminate|].
  unfold _build_url in H.
  apply bind_returns in H as ([[[host tld] ht] rebuild] & _ & Hu).
  injection Hu as <-. cbn [url_scheme]. rewrite Hsch. simpl. auto.
Qed.

End UrlCases.

(** X8. [host_required = False] is a relaxation and nothing else: the
    class that differs from [SqliteDsn] by requiring a host validates a
    connection string exactly when [SqliteDsn] validates it to a URL that
    has a host, and then to the same URL. *)
Theorem sqlite_dsn_relaxes_host_only
    (domain_grammar : string -> option (option string * bool * string))
    (s : string) (u : Url.UrlValue) :
  Url.validate domain_grammar (Url.with_host_required true Url.SqliteDsn) s = Ok u
  <-> Url.validate domain_grammar Url.SqliteDsn s = Ok u /\ is_Some (Url.url_host u).
Proof.
  change Url.SqliteDsn with (Url.with_host_required false Url.SqliteDsn) at 2.
  unfold Url.validate.
  cbn [Url.strip_whitespace Url.with_host_required].
  change (Url.constr_length_validator (Url.with_host_required true Url.SqliteDsn))
    with (Url.constr_length_validator (Url.with_host_required false Url.SqliteDsn)).
  destruct (Url.constr_length_validator _ _) as [url|e];
    [|split; [discriminate | intros [H _]; discriminate]].
  rewrite !bind_Ok.
  destruct (Url._match_url url) as [[rest parts]|];
    [|split; [discriminate | intros [H _]; discriminate]].
  change (Url.validate_parts (Url.with_host_required true Url.SqliteDsn))
    with (Url.validate_parts (Url.with_host_required false Url.SqliteDsn)).
  destruct (Url.validate_parts _ parts) as [parts'|e];
    [|split; [discriminate | intros [H _]; discriminate]].
  rewrite !bind_Ok.
  destruct (negb _); [split; [discriminate | intros [H _]; discriminate]|].
  apply build_url_required.
Qed.

(** X9. What the [connection_string] field holds after validation: a
    text that [ConfigStr] takes is kept as it is, before [SqliteDsn] is
    tried; otherwise the value is the URL [SqliteDsn] validated, and its
    scheme is, in lower case, one of the four SQLite schemes. *)
Theorem connection_string_value
    (domain_grammar : string -> option (option string * bool * string))
    (has_config_template : string -> bool) (s : string) (v : Url.ConnectionString) :
  Url.validate_connection_string domain_grammar has_config_template s = Ok v ->
  (has_config_template s = true /\ v = Url.ConfigStr s)
  \/ (has_config_template s = false
      /\ exists u, v = Url.Dsn u
                   /\ Url.validate domain_grammar Url.SqliteDsn s = Ok u
                   /\ Url.lower (Url.url_scheme u) ∈ Url.SQLITE_SCHEMES).
Proof.
  unfold Url.validate_connection_string, Url.ConfigStr_validate.
  destruct (has_config_template s).
  - intros [= <-]. left. auto.
  - destruct (Url.validate domain_grammar Url.SqliteDsn s) as [u|e] eqn:Hu;
      [|discriminate].
    intros [= <-]. right. split; [reflexivity|]. exists u.
    split; [reflexivity|]. split; [reflexivity|].
    apply validate_scheme in Hu as [_ Hperm].
    rewrite scheme_not_permitted_sqlite in Hperm.
    apply negb_false_iff, bool_decide_eq_true in Hperm. exact Hperm.
Qed.

Lemma connection_string_value_witness :
  let s := "sqlite+pysqlite:///:memory:" in
  exists v,
    Url.validate_connection_string Url.plain_domain_grammar Url.dollar_brace s = Ok v
    /\ ((Url.dollar_brace s = true /\ v = Url.ConfigStr s)
        \/ (Url.dollar_brace s = false
            /\ exists u, v = Url.Dsn u
                 /\ Url.validate Url.plain_domain_grammar Url.SqliteDsn s = Ok u
                 /\ Url.lower (Url.url_scheme u) ∈ Url.SQLITE_SCHEMES)).
Proof.
  intros s.
  destruct (Url.validate_connection_string Url.plain_domain_grammar Url.dollar_brace s)
    as [v|e] eqn:Hv; [|vm_compute in Hv; discriminate].
  exists v. split; [reflexivity|].
  apply (connection_string_value Url.plain_domain_grammar Url.dollar_brace s v Hv).
Defined.

(** ** The assets *)

(** X10. The constructor of a SQLite asset class runs the generic
    constructor first: an exception of the generic constructor is the
    exception of the construction, and no map is updated. *)
Theorem sqlite_asset_construction_propagates
    (SqlTableAsset__init__ SqlQueryAsset__init__ : gmap string PyValue -> result Sqlite.AssetState)
    (cls : Sqlite.AssetClass) (kwargs : gmap string PyValue) (e : exn) :
  Sqlite.sqlite_asset_class cls = true ->
  Sqlite.generic_constructor SqlTableAsset__init__ SqlQueryAsset__init__ cls kwargs
  = Raise e ->
  Sqlite.construct SqlTableAsset__init__ SqlQueryAsset__init__ cls kwargs = Raise e.
Proof.
  intros Hcls He. rewrite (construct_sqlite _ _ cls kwargs Hcls), He. reflexivity.
Qed.

Lemma sqlite_asset_construction_propagates_witness :
  Sqlite.construct (Instances.generic_init "table") (Instances.generic_init "query")
    Sqlite.SqliteQueryAsset (<["query" := PyStr "SELECT 1"]> ∅)
  = Raise (ValidationError ["name: field required"]).
Proof.
  apply (sqlite_asset_construction_propagates
           (Instances.generic_init "table") (Instances.generic_init "query")
           Sqlite.SqliteQueryAsset (<["query" := PyStr "SELECT 1"]> ∅)
           (ValidationError ["name: field required"])); reflexivity.
Defined.

(** X11. The construction removes no partitioner from the map: the keys
    of the map of the new asset are those the generic constructor set,
    with [PartitionerConvertedDatetime] among them; and when the generic
    constructor had bound that key to the SQLite implementation already,
    the asset is left as the generic constructor made it. *)
Theorem sqlite_asset_map_keys
    (SqlTableAsset__init__ SqlQueryAsset__init__ : gmap string PyValue -> result Sqlite.AssetState)
    (cls : Sqlite.AssetClass) (kwargs : gmap string PyValue)
    (asset : Sqlite.Asset) (base : Sqlite.AssetState) :
  Sqlite.sqlite_asset_class cls = true ->
  Sqlite.construct SqlTableAsset__init__ SqlQueryAsset__init__ cls kwargs = Ok asset ->
  Sqlite.generic_constructor SqlTableAsset__init__ SqlQueryAsset__init__ cls kwargs
  = Ok base ->
  dom (Sqlite._partitioner_implementation_map (Sqlite.state asset))
  = {[ Sqlite.PartitionerConvertedDatetime ]}
    ∪ dom (Sqlite._partitioner_implementation_map base)
  /\ (Sqlite._partitioner_implementation_map base !! Sqlite.PartitionerConvertedDatetime
      = Some (Some Sqlite.SqlitePartitionerConvertedDateTime) ->
      Sqlite.state asset = base).
Proof.
  intros Hcls Hc Hbase.
  rewrite (construct_sqlite _ _ cls kwargs Hcls), Hbase, bind_Ok in Hc.
  injection Hc as <-. cbn [Sqlite.state]. unfold Sqlite.setitem_partitioner.
  cbn [Sqlite._partitioner_implementation_map]. split.
  - apply dom_insert_L.
  - intros Hbound. rewrite (insert_id _ _ _ Hbound). destruct base; reflexivity.
Qed.

Lemma sqlite_asset_map_keys_witness :
  let kwargs : gmap string PyValue := <["name" := PyStr "trips"]> ∅ in
  let base :=
    {| Sqlite.fields := <["type" := PyStr "table"]> kwargs;
       Sqlite._partitioner_implementation_map := Instances.generic_map |} in
  let asset :=
    {| Sqlite.class_of := Sqlite.SqliteTableAsset;
       Sqlite.state :=
         Sqlite.setitem_partitioner Sqlite.PartitionerConvertedDatetime
           (Some Sqlite.SqlitePartitionerConvertedDateTime) base |} in
  dom (Sqlite._partitioner_implementation_map (Sqlite.state asset))
  = {[ Sqlite.PartitionerConvertedDatetime ]}
    ∪ dom (Sqlite._partitioner_implementation_map base)
  /\ (Sqlite._partitioner_implementation_map base !! Sqlite.PartitionerConvertedDatetime
      = Some (Some Sqlite.SqlitePartitionerConvertedDateTime) ->
      Sqlite.state asset = base).
Proof.
  intros kwargs base asset.
  apply (sqlite_asset_map_keys
           (Instances.generic_init "table") (Instances.generic_init "query")
           Sqlite.SqliteTableAsset kwargs asset base); reflexivity.
Defined.

(** X12. An asset that one of the two factory methods returns has
    [PartitionerConvertedDatetime] bound to the SQLite implementation:
    the factory methods, through the asset classes the datasource names,
    give assets with the updated map. *)
Theorem factory_assets_use_sqlite_partitioner
    (SqlTableAsset__init__ SqlQueryAsset__init__ : gmap string PyValue -> result Sqlite.AssetState)
    (self : Sqlite.SqliteDatasource) :
  (forall (a : Sqlite.table_asset_args) (asset : Sqlite.Asset)
          (self' : Sqlite.SqliteDatasource),
      Sqlite.add_table_asset SqlTableAsset__init__ SqlQueryAsset__init__ a self
      = (Ok asset, self') ->
      Sqlite._partitioner_implementation_map (Sqlite.state asset)
        !! Sqlite.PartitionerConvertedDatetime
      = Some (Some Sqlite.SqlitePartitionerConvertedDateTime))
  /\ (forall (q : Sqlite.query_asset_args) (asset : Sqlite.Asset)
             (self' : Sqlite.SqliteDatasource),
      Sqlite.add_query_asset SqlTableAsset__init__ SqlQueryAsset__init__ q self
      = (Ok asset, self') ->
      Sqlite._partitioner_implementation_map (Sqlite.state asset)
        !! Sqlite.PartitionerConvertedDatetime
      = Some (Some Sqlite.SqlitePartitionerConvertedDateTime)).
Proof.
  assert (forall cls kwargs asset self',
            Sqlite.sqlite_asset_class cls = true ->
            Sqlite.SQLDatasource_add_asset SqlTableAsset__init__ SqlQueryAsset__init__
              cls kwargs self = (Ok asset, self') ->
            Sqlite._partitioner_implementation_map (Sqlite.state asset)
              !! Sqlite.PartitionerConvertedDatetime
            = Some (Some Sqlite.SqlitePartitionerConvertedDateTime)) as Hadd.
  { intros cls kwargs asset self' Hcls H. unfold Sqlite.SQLDatasource_add_asset in H.
    destruct (Sqlite.construct _ _ cls kwargs) as [a|e] eqn:Hc; [|discriminate].
    injection H as <- _.
    rewrite (construct_sqlite _ _ cls kwargs Hcls) in Hc.
    apply bind_returns in Hc as (base & _ & [= <-]).
    apply lookup_insert_eq. }
  split; intros args asset self' H.
  - apply (Hadd Sqlite._TableAsset (Sqlite.table_asset_kwargs args) asset self' eq_refl H).
  - apply (Hadd Sqlite._QueryAsset (Sqlite.query_asset_kwargs args) asset self' eq_refl H).
Qed.

(** ** The path of the contract test *)

Section PathCases.
Import ContractTest.

Lemma parse_loop_cons (part : string) (it parsed : list string) :
  parse_loop (part :: it) parsed
  = if String.eqb part "" then parse_loop it parsed
    else
      let '(root, rel) := splitroot part in
      let parsed :=
        if has_sep rel
        then (parsed ++ filter (fun x => named x = true) (rev (split_sep rel)))%list
        else if named rel then (parsed ++ [rel])%list
        else parsed in
      if negb (String.eqb root "") then (root, parsed)
      else parse_loop it parsed.
Proof. reflexivity. Qed.

(** The first two arguments of the path close the loop with the root
    "/". *)
Lemma parse_loop_prefix (parsed : list string) :
  parse_loop ["organizations"; "/"] parsed = ("/", (parsed ++ ["organizations"])%list).
Proof. reflexivity. Qed.

Lemma splitroot_roots (part : string) :
  fst (splitroot part) = "" \/ fst (splitroot part) = "/" \/ fst (splitroot part) = "//".
Proof.
  unfold splitroot. destruct part as [|c part]; [auto|].
  destruct (Ascii.eqb c SEP); [|auto].
  destruct (Nat.eqb _ 2); auto.
Qed.

(** Whatever the third argument is, the loop ends on a root, and what it
    had parsed before is kept in front. *)
Lemma parse_loop_any (org : string) (parsed : list string) :
  exists (root : string) (more : list string),
    (root = "/" \/ root = "//")
    /\ parse_loop [org; "organizations"; "/"] parsed = (root, (parsed ++ more)%list).
Proof.
  rewrite parse_loop_cons.
  destruct (String.eqb org "").
  { exists "/", ["organizations"]. split; [auto | apply parse_loop_prefix]. }
  pose proof (splitroot_roots org) as Hroot.
  destruct (splitroot org) as [root rel]. simpl in Hroot.
  set (more := if has_sep rel
               then filter (fun x => named x = true) (rev (split_sep rel))
               else if named rel then [rel] else []).
  assert ((if has_sep rel
           then (parsed ++ filter (fun x => named x = true) (rev (split_sep rel)))%list
           else if named rel then (parsed ++ [rel])%list else parsed)
          = (parsed ++ more)%list) as ->.
  { unfold more. destruct (has_sep rel); [reflexivity|].
    destruct (named rel); [reflexivity | symmetry; apply app_nil_r]. }
  destruct Hroot as [-> | [-> | ->]].
  - exists "/", (more ++ ["organizations"])%list. split; [auto|].
    cbn [String.eqb negb]. rewrite parse_loop_prefix, <- app_assoc. reflexivity.
  - exists "/", more. split; [auto | reflexivity].
  - exists "//", more. split; [auto | reflexivity].
Qed.

Lemma lstrip_sep_plain (s : string) : has_sep s = false -> lstrip_sep s = s.
Proof.
  destruct s as [|c s]; [reflexivity|]. simpl.
  intros H. apply orb_false_iff in H as [-> _]. reflexivity.
Qed.

Lemma uuid_component (random : Z) (it parsed : list string) :
  parse_loop (uuid_str (uuid4 random) :: "datasources" :: it) parsed
  = parse_loop it (parsed ++ [uuid_str (uuid4 random); "datasources"])%list.
Proof.
  rewrite (parse_loop_name (uuid_str (uuid4 random)))
    by (apply uuid_str_named || (apply uuid_chars_no_sep, uuid_str_chars)).
  rewrite (parse_loop_name "datasources") by reflexivity.
  rewrite <- app_assoc. reflexivity.
Qed.

End PathCases.

(** X13. Whatever the organization id is, the path of the test is
    absolute and its last two components are "datasources" and the text of
    the UUID drawn for the run. *)
Theorem request_path_ends_with_datasource_uuid
    (existing_organization_id : string) (random : Z) :
  exists (root : string) (middle : list string),
    (root = "/" \/ root = "//")
    /\ ContractTest.request_path existing_organization_id random
       = {| ContractTest._root := root;
            ContractTest._parts :=
              (root :: middle
               ++ ["datasources"; ContractTest.uuid_str (ContractTest.uuid4 random)])%list |}.
Proof.
  unfold ContractTest.request_path, ContractTest.Path, ContractTest.parse_parts.
  cbn [rev List.app]. rewrite uuid_component.
  destruct (parse_loop_any existing_organization_id
              ([] ++ [ContractTest.uuid_str (ContractTest.uuid4 random); "datasources"])%list)
    as (root & more & Hroot & ->).
  exists root, (rev more). split; [exact Hroot|].
  assert (negb (String.eqb root "") = true) as ->
    by (destruct Hroot as [-> | ->]; reflexivity).
  f_equal. rewrite !rev_app_distr. reflexivity.
Qed.

(** X14. An empty organization id is not an empty component of the
    path: it is dropped, and the path is /organizations/datasources/<uuid>. *)
Theorem request_path_empty_organization (random : Z) :
  ContractTest.path_str (ContractTest.request_path "" random)
  = "/organizations/datasources/" +:+ ContractTest.uuid_str (ContractTest.uuid4 random).
Proof.
  unfold ContractTest.request_path, ContractTest.Path, ContractTest.parse_parts.
  cbn [rev List.app]. rewrite uuid_component. reflexivity.
Qed.

(** X15. An organization id that starts with a slash replaces what
    comes before it: for the id /<name>, with <name> a single component,
    the path is /<name>/datasources/<uuid>, without "organizations". *)
Theorem request_path_absolute_organization (name : string) (random : Z) :
  ContractTest.named name = true ->
  ContractTest.has_sep name = false ->
  ContractTest.path_str (ContractTest.request_path (String "/" name) random)
  = "/" +:+ name +:+ "/datasources/" +:+ ContractTest.uuid_str (ContractTest.uuid4 random).
Proof.
  intros Hn Hs.
  unfold ContractTest.request_path, ContractTest.Path, ContractTest.parse_parts.
  cbn [rev List.app]. rewrite uuid_component, parse_loop_cons.
  cbn [String.eqb Ascii.eqb Bool.eqb].
  assert (ContractTest.splitroot (String "/" name) = ("/", name)) as ->.
  { unfold ContractTest.splitroot. cbn [Ascii.eqb Bool.eqb ContractTest.SEP].
    change (ContractTest.lstrip_sep (String "/" name))
      with (ContractTest.lstrip_sep name).
    rewrite (lstrip_sep_plain name Hs). cbn [String.length].
    replace (S (String.length name) - String.length name) with 1 by lia.
    reflexivity. }
  rewrite Hs, Hn. reflexivity.
Qed.

Lemma request_path_absolute_organization_witness :
  ContractTest.path_str (ContractTest.request_path "/0ccac18e" 77)
  = "/" +:+ "0ccac18e" +:+ "/datasources/"
    +:+ ContractTest.uuid_str (ContractTest.uuid4 77).
Proof.
  apply (request_path_absolute_organization "0ccac18e" 77); reflexivity.
Defined.

(** ** The UUID of the contract test *)

Section UuidBits.
Import ContractTest.
Local Open Scope Z_scope.

Lemma uuid4_testbit (random n : Z) :
  0 <= n ->
  Z.testbit (uuid4 random) n
  = (((Z.testbit random n && Z.testbit (Z.ones 128) n)
      && Z.testbit (Z.lnot (Z.shiftl 0xc000 48)) n
      || Z.testbit (Z.shiftl 0x8000 48) n)
     && Z.testbit (Z.lnot (Z.shiftl 0xf000 64)) n
     || Z.testbit (Z.shiftl 4 76) n)%bool.
Proof.
  intros Hn. unfold uuid4.
  rewrite Z.lor_spec, Z.land_spec, Z.lor_spec, !Z.land_spec. reflexivity.
Qed.

(** The masks of [uuid4], bit by bit below 128: outside the six bits of
    the variant and the version they let the random bit through. *)
Lemma uuid4_masks_below_128 :
  forallb (fun k : nat =>
             let n := Z.of_nat k in
             if (n =? 62) || (n =? 63) || ((76 <=? n) && (n <=? 79))
             then true
             else Z.testbit (Z.ones 128) n
                  && Z.testbit (Z.lnot (Z.shiftl 0xc000 48)) n
                  && negb (Z.testbit (Z.shiftl 0x8000 48) n)
                  && Z.testbit (Z.lnot (Z.shiftl 0xf000 64)) n
                  && negb (Z.testbit (Z.shiftl 4 76) n))%bool
          (seq 0 128) = true.
Proof. vm_compute. reflexivity. Qed.

End UuidBits.

(** X16. The UUID drawn is a version 4 UUID of the RFC 4122 variant (the
    four bits from 76 are 0100, the two bits from 62 are 10), and every
    other bit below 128 is the bit of the random source. *)
Theorem uuid4_version_variant (random : Z) :
  Z.land (Z.shiftr (ContractTest.uuid4 random) 76) 15 = 4%Z
  /\ Z.land (Z.shiftr (ContractTest.uuid4 random) 62) 3 = 2%Z
  /\ (forall n : Z,
        (0 <= n < 128)%Z -> n <> 62%Z -> n <> 63%Z -> ~ (76 <= n <= 79)%Z ->
        Z.testbit (ContractTest.uuid4 random) n = Z.testbit random n).
Proof.
  split; [|split].
  - apply Z.bits_inj'. intros n Hn.
    rewrite Z.land_spec, Z.shiftr_spec by exact Hn.
    destruct (Z.lt_ge_cases n 4) as [Hlt|Hge].
    + assert (n = 0 \/ n = 1 \/ n = 2 \/ n = 3)%Z as [-> | [-> | [-> | ->]]] by lia;
        rewrite uuid4_testbit by lia;
        cbn; rewrite ?andb_false_r, ?orb_true_r, ?orb_false_r; reflexivity.
    + replace 15%Z with (Z.ones 4) by reflexivity.
      rewrite (Z.ones_spec_high 4 n) by lia. rewrite andb_false_r.
      symmetry. apply (Z.pow2_bits_false 2 n). lia.
  - apply Z.bits_inj'. intros n Hn.
    rewrite Z.land_spec, Z.shiftr_spec by exact Hn.
    destruct (Z.lt_ge_cases n 2) as [Hlt|Hge].
    + assert (n = 0 \/ n = 1)%Z as [-> | ->] by lia;
        rewrite uuid4_testbit by lia;
        cbn; rewrite ?andb_false_r, ?andb_true_r, ?orb_true_r, ?orb_false_r; reflexivity.
    + replace 3%Z with (Z.ones 2) by reflexivity.
      rewrite (Z.ones_spec_high 2 n) by lia. rewrite andb_false_r.
      symmetry. apply (Z.pow2_bits_false 1 n). lia.
  - intros n Hn H62 H63 Hver.
    rewrite uuid4_testbit by lia.
    pose proof uuid4_masks_below_128 as Hmask.
    rewrite forallb_forall in Hmask.
    specialize (Hmask (Z.to_nat n)).
    rewrite Z2Nat.id in Hmask by lia.
    assert (In (Z.to_nat n) (seq 0 128)) as Hin by (apply in_seq; lia).
    specialize (Hmask Hin). cbv zeta in Hmask.
    destruct (Z.eqb_spec n 62); [contradiction|].
    destruct (Z.eqb_spec n 63); [contradiction|].
    destruct (Z.leb_spec 76 n); [destruct (Z.leb_spec n 79); [lia|]|];
      cbn [orb andb] in Hmask;
      repeat (apply andb_true_iff in Hmask as [Hmask ?]);
      repeat match goal with
             | H : negb _ = true |- _ => apply negb_true_iff in H
             end;
      repeat match goal with
             | H : Z.testbit _ n = _ |- _ => rewrite H
             end;
      rewrite ?andb_true_r, ?orb_false_r; reflexivity.
Qed.
